(** * WinMerge version-resource reader and Poco environment facade

    A shallow embedding of [Src/Common/version.cpp] (class [CVersionInfo])
    and of [Externals/poco/Foundation/src/Environment.cpp]
    (class [Poco::Environment]), with the properties of their
    specification stated and proved over the embedding.

    Conventions.
    - [WORD], [DWORD], [BOOL], [HRESULT] are [Z]; a [BOOL] is true when it
      is not [0].
    - [String] / [std::string] / [TCHAR] buffers are [string].
    - Operating-system entry points are the fields of a [Platform] record;
      every call the code makes is also appended to a call log.
    - Storage the C++ code reads without having written it is an explicit
      input, gathered in the record [Uninit]; a read through a pointer
      that was never written faults, and a run that has faulted takes no
      further step. *)

From Stdlib Require Import ZArith List Bool Lia Ascii String.
From Stdlib Require Import Strings.Byte.
From Stdlib Require DecimalString HexadecimalString.
Import ListNotations.

Open Scope string_scope.
Open Scope Z_scope.

(** ** Strings *)

Module Str.

(** The first [n] characters of [s] (all of [s] when it is shorter). *)
Fixpoint take (n : nat) (s : string) : string :=
  match n, s with
  | O, _ => EmptyString
  | S _, EmptyString => EmptyString
  | S n', String c s' => String c (take n' s')
  end.

Definition empty (s : string) : bool :=
  match s with
  | EmptyString => true
  | String _ _ => false
  end.

Fixpoint map (f : ascii -> ascii) (s : string) : string :=
  match s with
  | EmptyString => EmptyString
  | String c s' => String (f c) (map f s')
  end.

Fixpoint replicate (n : nat) (c : ascii) : string :=
  match n with
  | O => EmptyString
  | S n' => String c (replicate n' c)
  end.

End Str.

(** ** The printf family

    The conversions the two files use: [%d], [%02x], [%04x], [%4.4X], all
    applied to arguments that were promoted from [WORD] or [UInt8] to
    [int]. *)

Module Printf.

(** [%d] *)
Definition fmt_d (n : Z) : string :=
  DecimalString.NilZero.string_of_int (Z.to_int n).

(** [%x] of a non-negative [int]: lowercase, no padding. *)
Definition fmt_x (n : Z) : string :=
  HexadecimalString.NilZero.string_of_uint (N.to_hex_uint (Z.to_N n)).

Definition pad0 (width : nat) (s : string) : string :=
  Str.replicate (width - String.length s) "0"%char ++ s.

(** The digits above nine as [%X] prints them. *)
Definition upper_hex (c : ascii) : ascii :=
  let n := nat_of_ascii c in
  if ((97 <=? n) && (n <=? 102))%nat then ascii_of_nat (n - 32) else c.

(** [%0<w>x]: lowercase hexadecimal, padded with zeros to [w] characters. *)
Definition fmt_0x (w : nat) (n : Z) : string := pad0 w (fmt_x n).

(** [%<w>.<w>X]: uppercase hexadecimal with at least [w] digits. *)
Definition fmt_pX (w : nat) (n : Z) : string :=
  Str.map upper_hex (pad0 w (fmt_x n)).

(** [StringCchPrintf(dest, cchDest, ...)] and [StringCchCopy]: the
    formatted text [s], cut to [cchDest - 1] characters when it does not
    fit (the terminator takes one element). *)
Definition StringCch (cchDest : nat) (s : string) : string :=
  Str.take (cchDest - 1) s.

(** The array overload of [sprintf_s]: the text must fit the array with
    its terminator, otherwise the invalid-parameter handler runs and no
    string is produced. *)
Definition sprintf_s (size : nat) (s : string) : option string :=
  if (String.length s <? size)%nat then Some s else None.

(** Exhaustive check of a predicate on the [2 ^ bits] integers that extend
    the binary prefix [pre]. *)
Fixpoint all_words (bits : nat) (pre : Z) (p : Z -> bool) : bool :=
  match bits with
  | O => p pre
  | S b => all_words b (2 * pre) p && all_words b (2 * pre + 1) p
  end.

End Printf.

(** ** Windows scalar types and macros *)

Definition WORD := Z.
Definition DWORD := Z.
Definition BOOL := Z.
Definition HRESULT := Z.
Definition HINSTANCE := Z.

Definition TRUE : BOOL := 1.
Definition FALSE : BOOL := 0.

(** A [BOOL] used as a condition. *)
Definition truthy (b : BOOL) : bool := negb (b =? 0).

Definition LOWORD (l : DWORD) : WORD := Z.land l 65535.
Definition HIWORD (l : DWORD) : WORD := Z.land (Z.shiftr l 16) 65535.

Definition FAILED (hr : HRESULT) : bool := hr <? 0.

Definition MAX_PATH : nat := 260.
Definition NULL : HINSTANCE := 0.

(** ** version.cpp *)

Module Version.

(** [MakeVersionString]: [ver] has 50 elements and the formatting call is
    given [countof(ver) - 1]. *)
Definition MakeVersionString (hi lo : DWORD) : string :=
  if LOWORD lo =? 0 then
    Printf.StringCch (50 - 1)
      (Printf.fmt_d (HIWORD hi) ++ "." ++ Printf.fmt_d (LOWORD hi) ++ "." ++
       Printf.fmt_d (HIWORD lo))
  else
    Printf.StringCch (50 - 1)
      (Printf.fmt_d (HIWORD hi) ++ "." ++ Printf.fmt_d (LOWORD hi) ++ "." ++
       Printf.fmt_d (HIWORD lo) ++ "." ++ Printf.fmt_d (LOWORD lo)).

(** *** Structures *)

Record LANGUAGEANDCODEPAGE := {
  wLanguage : WORD;
  wCodePage : WORD
}.

Record VS_FIXEDFILEINFO := {
  dwSignature : DWORD;
  dwStrucVersion : DWORD;
  dwFileVersionMS : DWORD;
  dwFileVersionLS : DWORD;
  dwProductVersionMS : DWORD;
  dwProductVersionLS : DWORD;
  dwFileFlagsMask : DWORD;
  dwFileFlags : DWORD;
  dwFileOS : DWORD;
  dwFileType : DWORD;
  dwFileSubtype : DWORD;
  dwFileDateMS : DWORD;
  dwFileDateLS : DWORD
}.

Record DLLVERSIONINFO := {
  cbSize : DWORD;
  dwMajorVersion : DWORD;
  dwMinorVersion : DWORD;
  dwBuildNumber : DWORD;
  dwPlatformID : DWORD
}.

(** [ZeroMemory] and [= { 0 }] *)
Definition zero_ffi : VS_FIXEDFILEINFO :=
  {| dwSignature := 0; dwStrucVersion := 0;
     dwFileVersionMS := 0; dwFileVersionLS := 0;
     dwProductVersionMS := 0; dwProductVersionLS := 0;
     dwFileFlagsMask := 0; dwFileFlags := 0; dwFileOS := 0;
     dwFileType := 0; dwFileSubtype := 0;
     dwFileDateMS := 0; dwFileDateLS := 0 |}.

Definition zero_dvi : DLLVERSIONINFO :=
  {| cbSize := 0; dwMajorVersion := 0; dwMinorVersion := 0;
     dwBuildNumber := 0; dwPlatformID := 0 |}.

Definition sizeof_DLLVERSIONINFO : DWORD := 20.

(** *** The operating system *)

(** A loaded version-information block, as [VerQueryValue] answers on it:
    the root query, the translation query, and the query of any other
    sub-block path, which yields the text stored there.  [None] is a
    [FALSE] return. *)
Record VersionBlock := {
  vq_root : option VS_FIXEDFILEINFO;
  vq_translation : option (list LANGUAGEANDCODEPAGE);
  vq_string : string -> option string
}.

(** [DllGetVersion] as exported by a module: it receives the structure
    and returns a result code together with the structure as it left it. *)
Definition DLLGETVERSIONPROC : Type :=
  DLLVERSIONINFO -> HRESULT * DLLVERSIONINFO.

(** The entry points used by version.cpp.  [GetFileVersionInfo] yields the
    loaded block, or [None] when it fails; [LoadLibrary] yields a handle,
    [NULL] when it fails; [GetProcAddress] is taken at the one symbol the
    code asks for, [None] being a null pointer.  [trim_ws] is
    [strutils::trim_ws], declared in UnicodeString.h. *)
Record Platform := {
  GetModuleFileName : HINSTANCE -> string;
  GetFileVersionInfoSize : string -> DWORD;
  GetFileVersionInfo : string -> option VersionBlock;
  LoadLibrary : string -> HINSTANCE;
  GetProcAddress_DllGetVersion : HINSTANCE -> option DLLGETVERSIONPROC;
  trim_ws : string -> string
}.

(** The calls the code makes, in the order it makes them. *)
Inductive OsCall :=
| CallGetModuleFileName (hModule : HINSTANCE)
| CallGetFileVersionInfoSize (file : string)
| CallGetFileVersionInfo (file : string)
| CallVerQueryValue (subBlock : string)
| CallLoadLibrary (file : string)
| CallGetProcAddress (h : HINSTANCE) (symbol : string)
| CallDllGetVersion
| CallFreeLibrary (h : HINSTANCE).

(** Storage that is read without having been written:
    - [u_bVersionFound]: the member [m_bVersionFound], which no
      constructor initialiser list mentions and which [GetVersionInfo]
      only ever sets to [TRUE];
    - [u_codepage]: the local [codepage] of [QueryStrings], written by
      [GetCodepageForLanguage] only when a language matches;
    - [u_cbTranslate]: the local [cbTranslate] of [GetCodepageForLanguage]
      after a translation query that failed, a [UINT] that nothing has
      to have written;
    - [u_entry]: what [lpTranslate[0]] reads when the translation value is
      present with no entry. *)
Record Uninit := {
  u_bVersionFound : BOOL;
  u_codepage : WORD;
  u_cbTranslate : DWORD;
  u_entry : LANGUAGEANDCODEPAGE
}.

(** *** The class *)

(** The eleven [String] members filled by [QueryValue]. *)
Inductive StringMember :=
| m_strCompanyName
| m_strFileDescription
| m_strFileVersion
| m_strInternalName
| m_strLegalCopyright
| m_strOriginalFilename
| m_strProductName
| m_strProductVersion
| m_strComments
| m_strSpecialBuild
| m_strPrivateBuild.

Definition StringMember_eqb (a b : StringMember) : bool :=
  match a, b with
  | m_strCompanyName, m_strCompanyName
  | m_strFileDescription, m_strFileDescription
  | m_strFileVersion, m_strFileVersion
  | m_strInternalName, m_strInternalName
  | m_strLegalCopyright, m_strLegalCopyright
  | m_strOriginalFilename, m_strOriginalFilename
  | m_strProductName, m_strProductName
  | m_strProductVersion, m_strProductVersion
  | m_strComments, m_strComments
  | m_strSpecialBuild, m_strSpecialBuild
  | m_strPrivateBuild, m_strPrivateBuild => true
  | _, _ => false
  end.

(** [m_pVffInfo]: null, allocated and not filled, or filled by a
    successful [GetFileVersionInfo]. *)
Inductive VffBuffer :=
| vff_null
| vff_allocated (size : DWORD)
| vff_loaded (size : DWORD) (block : VersionBlock).

Record CVersionInfo := {
  m_FixedFileInfo : VS_FIXEDFILEINFO;
  m_pVffInfo : VffBuffer;
  m_bVersionOnly : BOOL;
  m_bDllVersion : BOOL;
  m_wLanguage : WORD;
  m_bVersionFound : BOOL;
  m_strFileName : string;
  m_strLanguage : string;
  m_strCodepage : string;
  m_str : StringMember -> string;
  m_dvi : DLLVERSIONINFO
}.

Definition set_FixedFileInfo (v : VS_FIXEDFILEINFO) (o : CVersionInfo) :=
  {| m_FixedFileInfo := v; m_pVffInfo := m_pVffInfo o;
     m_bVersionOnly := m_bVersionOnly o; m_bDllVersion := m_bDllVersion o;
     m_wLanguage := m_wLanguage o; m_bVersionFound := m_bVersionFound o;
     m_strFileName := m_strFileName o; m_strLanguage := m_strLanguage o;
     m_strCodepage := m_strCodepage o; m_str := m_str o; m_dvi := m_dvi o |}.

Definition set_pVffInfo (v : VffBuffer) (o : CVersionInfo) :=
  {| m_FixedFileInfo := m_FixedFileInfo o; m_pVffInfo := v;
     m_bVersionOnly := m_bVersionOnly o; m_bDllVersion := m_bDllVersion o;
     m_wLanguage := m_wLanguage o; m_bVersionFound := m_bVersionFound o;
     m_strFileName := m_strFileName o; m_strLanguage := m_strLanguage o;
     m_strCodepage := m_strCodepage o; m_str := m_str o; m_dvi := m_dvi o |}.

Definition set_bVersionFound (v : BOOL) (o : CVersionInfo) :=
  {| m_FixedFileInfo := m_FixedFileInfo o; m_pVffInfo := m_pVffInfo o;
     m_bVersionOnly := m_bVersionOnly o; m_bDllVersion := m_bDllVersion o;
     m_wLanguage := m_wLanguage o; m_bVersionFound := v;
     m_strFileName := m_strFileName o; m_strLanguage := m_strLanguage o;
     m_strCodepage := m_strCodepage o; m_str := m_str o; m_dvi := m_dvi o |}.

Definition set_strLanguage (v : string) (o : CVersionInfo) :=
  {| m_FixedFileInfo := m_FixedFileInfo o; m_pVffInfo := m_pVffInfo o;
     m_bVersionOnly := m_bVersionOnly o; m_bDllVersion := m_bDllVersion o;
     m_wLanguage := m_wLanguage o; m_bVersionFound := m_bVersionFound o;
     m_strFileName := m_strFileName o; m_strLanguage := v;
     m_strCodepage := m_strCodepage o; m_str := m_str o; m_dvi := m_dvi o |}.

Definition set_strCodepage (v : string) (o : CVersionInfo) :=
  {| m_FixedFileInfo := m_FixedFileInfo o; m_pVffInfo := m_pVffInfo o;
     m_bVersionOnly := m_bVersionOnly o; m_bDllVersion := m_bDllVersion o;
     m_wLanguage := m_wLanguage o; m_bVersionFound := m_bVersionFound o;
     m_strFileName := m_strFileName o; m_strLanguage := m_strLanguage o;
     m_strCodepage := v; m_str := m_str o; m_dvi := m_dvi o |}.

Definition set_str (k : StringMember) (v : string) (o : CVersionInfo) :=
  {| m_FixedFileInfo := m_FixedFileInfo o; m_pVffInfo := m_pVffInfo o;
     m_bVersionOnly := m_bVersionOnly o; m_bDllVersion := m_bDllVersion o;
     m_wLanguage := m_wLanguage o; m_bVersionFound := m_bVersionFound o;
     m_strFileName := m_strFileName o; m_strLanguage := m_strLanguage o;
     m_strCodepage := m_strCodepage o;
     m_str := fun k' => if StringMember_eqb k' k then v else m_str o k';
     m_dvi := m_dvi o |}.

Definition set_dvi (v : DLLVERSIONINFO) (o : CVersionInfo) :=
  {| m_FixedFileInfo := m_FixedFileInfo o; m_pVffInfo := m_pVffInfo o;
     m_bVersionOnly := m_bVersionOnly o; m_bDllVersion := m_bDllVersion o;
     m_wLanguage := m_wLanguage o; m_bVersionFound := m_bVersionFound o;
     m_strFileName := m_strFileName o; m_strLanguage := m_strLanguage o;
     m_strCodepage := m_strCodepage o; m_str := m_str o; m_dvi := v |}.

Definition set_cbSize (v : DWORD) (d : DLLVERSIONINFO) :=
  {| cbSize := v; dwMajorVersion := dwMajorVersion d;
     dwMinorVersion := dwMinorVersion d; dwBuildNumber := dwBuildNumber d;
     dwPlatformID := dwPlatformID d |}.

(** The object under construction together with the log of the calls made
    so far (oldest first), and whether the run has faulted: the object
    and the log are then those of the moment of the fault. *)
Record Run := {
  this : CVersionInfo;
  calls : list OsCall;
  fault : bool
}.

Definition upd (f : CVersionInfo -> CVersionInfo) (r : Run) : Run :=
  {| this := f (this r); calls := calls r; fault := fault r |}.

Definition log (c : OsCall) (r : Run) : Run :=
  {| this := this r; calls := calls r ++ [c]; fault := fault r |}.

(** A read through a pointer that holds no address of the program. *)
Definition crash (r : Run) : Run :=
  {| this := this r; calls := calls r; fault := true |}.

(** The statements that follow a call: they run unless the call
    faulted. *)
Definition unless_fault (r : Run) (rest : Run -> Run) : Run :=
  if fault r then r else rest r.

(** *** Member functions *)

Section Members.

Variable P : Platform.
Variable u : Uninit.

(** [VerQueryValue] on [m_pVffInfo.get()]; a buffer that was not filled
    holds no sub-block. *)
Definition block (o : CVersionInfo) : option VersionBlock :=
  match m_pVffInfo o with
  | vff_loaded _ b => Some b
  | _ => None
  end.

Definition VerQueryValue_root (o : CVersionInfo) : option VS_FIXEDFILEINFO :=
  match block o with Some b => vq_root b | None => None end.

Definition VerQueryValue_translation (o : CVersionInfo)
  : option (list LANGUAGEANDCODEPAGE) :=
  match block o with Some b => vq_translation b | None => None end.

Definition VerQueryValue_string (o : CVersionInfo) (sel : string)
  : option string :=
  match block o with Some b => vq_string b sel | None => None end.

(** The loop of [GetCodepageForLanguage], on the entries from index [i]
    on: the result is [bFound] and the value of [wCodePage]. *)
Fixpoint scan_translation (entries : list LANGUAGEANDCODEPAGE)
    (wLang : WORD) (wCodePage : WORD) : BOOL * WORD :=
  match entries with
  | [] => (FALSE, wCodePage)
  | e :: rest =>
      if wLanguage e =? wLang then (TRUE, Version.wCodePage e)
      else scan_translation rest wLang wCodePage
  end.

(** [GetCodepageForLanguage(wLanguage, wCodePage)]: the return value and
    the out-parameter.  The result of [VerQueryValue] is not tested.  When
    the query fails, [lpTranslate] was never written and [cbTranslate]
    holds [u_cbTranslate]: [nLangCount] is that count divided by
    [sizeof(LANGUAGEANDCODEPAGE)], which is 4, and as soon as the loop is
    entered ([i < nLangCount] with [i] zero) it reads [lpTranslate[0]]
    through the unwritten pointer, where the run faults. *)
Definition GetCodepageForLanguage (wLang : WORD) (wCodePage : WORD)
    (r : Run) : BOOL * WORD * Run :=
  let r := log (CallVerQueryValue "\VarFileInfo\Translation") r in
  match VerQueryValue_translation (this r) with
  | Some lpTranslate => (scan_translation lpTranslate wLang wCodePage, r)
  | None =>
      let nLangCount := u_cbTranslate u / 4 in
      if 0 <? nLangCount then (FALSE, wCodePage, crash r)
      else (FALSE, wCodePage, r)
  end.

(** [QueryValue(szId, s)], [s] being one of the eleven members. *)
Definition QueryValue (szId : string) (s : StringMember) (r : Run) : Run :=
  let szSelector :=
    Printf.StringCch (256 - 1)
      ("\StringFileInfo\" ++ m_strLanguage (this r) ++
       m_strCodepage (this r) ++ "\" ++ szId) in
  let r := log (CallVerQueryValue szSelector) r in
  match VerQueryValue_string (this r) szSelector with
  | Some lpVersion =>
      if Str.empty lpVersion then upd (set_str s lpVersion) r
      else upd (set_str s (trim_ws P lpVersion)) r
  | None => upd (set_str s "") r
  end.

Definition QueryStrings (r : Run) : Run :=
  let r :=
    if negb (m_wLanguage (this r) =? 0) then
      let '(_, codepage, r) :=
        GetCodepageForLanguage (m_wLanguage (this r)) (u_codepage u) r in
      unless_fault r (fun r =>
      let temp := Printf.StringCch (20 - 1)
                    (Printf.fmt_0x 4 (m_wLanguage (this r))) in
      let r := upd (set_strLanguage temp) r in
      let temp := Printf.StringCch (20 - 1) (Printf.fmt_0x 4 codepage) in
      upd (set_strCodepage temp) r)
    else if Str.empty (m_strLanguage (this r))
            || Str.empty (m_strCodepage (this r)) then
      let r := log (CallVerQueryValue "\VarFileInfo\Translation") r in
      match VerQueryValue_translation (this r) with
      | Some lpTranslate =>
          let e0 := hd (u_entry u) lpTranslate in
          let temp := Printf.StringCch (20 - 1)
                        (Printf.fmt_pX 4 (wLanguage e0)) in
          let r := upd (set_strLanguage temp) r in
          let temp := Printf.StringCch (20 - 1)
                        (Printf.fmt_pX 4 (wCodePage e0)) in
          upd (set_strCodepage temp) r
      | None => r
      end
    else r in
  unless_fault r (fun r =>
  let r := QueryValue "CompanyName" m_strCompanyName r in
  let r := QueryValue "FileDescription" m_strFileDescription r in
  let r := QueryValue "FileVersion" m_strFileVersion r in
  let r := QueryValue "InternalName" m_strInternalName r in
  let r := QueryValue "LegalCopyright" m_strLegalCopyright r in
  let r := QueryValue "OriginalFilename" m_strOriginalFilename r in
  let r := QueryValue "ProductName" m_strProductName r in
  let r := QueryValue "ProductVersion" m_strProductVersion r in
  let r := QueryValue "Comments" m_strComments r in
  let r := QueryValue "SpecialBuild" m_strSpecialBuild r in
  QueryValue "PrivateBuild" m_strPrivateBuild r).

Definition GetFixedVersionInfo (r : Run) : Run :=
  let r := log (CallVerQueryValue "\") r in
  let r :=
    match VerQueryValue_root (this r) with
    | Some pffi => upd (set_FixedFileInfo pffi) r
    | None => upd (set_FixedFileInfo zero_ffi) r
    end in
  let ffi := m_FixedFileInfo (this r) in
  upd (fun o =>
         set_dvi {| cbSize := cbSize (m_dvi o);
                    dwMajorVersion := HIWORD (dwFileVersionMS ffi);
                    dwMinorVersion := LOWORD (dwFileVersionMS ffi);
                    dwBuildNumber := HIWORD (dwFileVersionLS ffi);
                    dwPlatformID := dwPlatformID (m_dvi o) |} o) r.

Definition GetVersionInfo (r : Run) : Run :=
  let r := upd (set_FixedFileInfo zero_ffi) r in
  let r := upd (set_dvi zero_dvi) r in
  let '(szFileName, r) :=
    if Str.empty (m_strFileName (this r)) then
      (GetModuleFileName P NULL, log (CallGetModuleFileName NULL) r)
    else (Printf.StringCch MAX_PATH (m_strFileName (this r)), r) in
  let r := log (CallGetFileVersionInfoSize szFileName) r in
  let dwVerInfoSize := GetFileVersionInfoSize P szFileName in
  let r :=
    if negb (dwVerInfoSize =? 0) then
      let r := upd (set_bVersionFound TRUE) r in
      let r := upd (set_pVffInfo (vff_allocated dwVerInfoSize)) r in
      let r := log (CallGetFileVersionInfo szFileName) r in
      match GetFileVersionInfo P szFileName with
      | Some b =>
          let r := upd (set_pVffInfo (vff_loaded dwVerInfoSize b)) r in
          let r := GetFixedVersionInfo r in
          if m_bVersionOnly (this r) =? FALSE then QueryStrings r else r
      | None => r
      end
    else r in
  unless_fault r (fun r =>
  if truthy (m_bDllVersion (this r)) then
    let r := log (CallLoadLibrary szFileName) r in
    let hinstDll := LoadLibrary P szFileName in
    if negb (hinstDll =? NULL) then
      let r := log (CallGetProcAddress hinstDll "DllGetVersion") r in
      let r :=
        match GetProcAddress_DllGetVersion P hinstDll with
        | Some DllGetVersion =>
            let r := upd (fun o =>
                       set_dvi (set_cbSize sizeof_DLLVERSIONINFO (m_dvi o)) o) r in
            let r := log CallDllGetVersion r in
            let '(hr, dvi) := DllGetVersion (m_dvi (this r)) in
            let r := upd (set_dvi dvi) r in
            if FAILED hr
            then upd (fun o => set_dvi (set_cbSize 0 (m_dvi o)) o) r
            else r
        | None => r
        end in
      log (CallFreeLibrary hinstDll) r
    else r
  else r).

(** *** Constructors *)

(** The members as they are when a constructor body starts: the [String]
    members and the buffer pointer are default-constructed, the three
    members of the initialiser list hold the given values, and
    [m_bVersionFound] holds whatever its storage holds.  [m_FixedFileInfo]
    and [m_dvi] are zeroed by [GetVersionInfo] before anything reads
    them. *)
Definition members (wLang : WORD) (bVersionOnly bDllVersion : BOOL)
  : CVersionInfo :=
  {| m_FixedFileInfo := zero_ffi; m_pVffInfo := vff_null;
     m_bVersionOnly := bVersionOnly; m_bDllVersion := bDllVersion;
     m_wLanguage := wLang; m_bVersionFound := u_bVersionFound u;
     m_strFileName := ""; m_strLanguage := ""; m_strCodepage := "";
     m_str := fun _ => ""; m_dvi := zero_dvi |}.

Definition set_strFileName (v : string) (o : CVersionInfo) :=
  {| m_FixedFileInfo := m_FixedFileInfo o; m_pVffInfo := m_pVffInfo o;
     m_bVersionOnly := m_bVersionOnly o; m_bDllVersion := m_bDllVersion o;
     m_wLanguage := m_wLanguage o; m_bVersionFound := m_bVersionFound o;
     m_strFileName := v; m_strLanguage := m_strLanguage o;
     m_strCodepage := m_strCodepage o; m_str := m_str o; m_dvi := m_dvi o |}.

Definition assign_if_not_null (set : string -> CVersionInfo -> CVersionInfo)
    (sz : option string) (o : CVersionInfo) : CVersionInfo :=
  match sz with
  | Some s => set s o
  | None => o
  end.

Definition start (o : CVersionInfo) : Run :=
  {| this := o; calls := []; fault := false |}.

(** [CVersionInfo(BOOL bVersionOnly)] *)
Definition CVersionInfo_VersionOnly (bVersionOnly : BOOL) : Run :=
  GetVersionInfo (start (members 0 bVersionOnly FALSE)).

(** [CVersionInfo(WORD wLanguage)] *)
Definition CVersionInfo_Language (wLang : WORD) : Run :=
  GetVersionInfo (start (members wLang FALSE FALSE)).

(** [CVersionInfo(LPCTSTR szFileToVersion, BOOL bDllVersion)] *)
Definition CVersionInfo_FileDll (szFileToVersion : option string)
    (bDllVersion : BOOL) : Run :=
  let o := members 0 FALSE bDllVersion in
  let o := assign_if_not_null set_strFileName szFileToVersion o in
  GetVersionInfo (start o).

(** [CVersionInfo(LPCTSTR szFileToVersion, LPCTSTR szLanguage,
    LPCTSTR szCodepage)] *)
Definition CVersionInfo_FileLanguage (szFileToVersion szLanguage
    szCodepage : option string) : Run :=
  let o := members 0 FALSE FALSE in
  let o := assign_if_not_null set_strFileName szFileToVersion o in
  let o := assign_if_not_null set_strLanguage szLanguage o in
  let o := assign_if_not_null set_strCodepage szCodepage o in
  GetVersionInfo (start o).

(** [CVersionInfo(HINSTANCE hModule)] *)
Definition CVersionInfo_Module (hModule : HINSTANCE) : Run :=
  let o := members 0 FALSE FALSE in
  let r := log (CallGetModuleFileName hModule) (start o) in
  let szFileName := GetModuleFileName P hModule in
  GetVersionInfo (upd (set_strFileName szFileName) r).

(** The five ways to build a record. *)
Inductive Construction :=
| ByVersionOnly (bVersionOnly : BOOL)
| ByLanguage (wLang : WORD)
| ByFileDll (szFileToVersion : option string) (bDllVersion : BOOL)
| ByFileLanguage (szFileToVersion szLanguage szCodepage : option string)
| ByModule (hModule : HINSTANCE).

Definition construct (c : Construction) : Run :=
  match c with
  | ByVersionOnly b => CVersionInfo_VersionOnly b
  | ByLanguage w => CVersionInfo_Language w
  | ByFileDll f b => CVersionInfo_FileDll f b
  | ByFileLanguage f l c => CVersionInfo_FileLanguage f l c
  | ByModule h => CVersionInfo_Module h
  end.

(** The two parts of [QueryStrings]: the choice of the language and
    codepage texts, and the eleven queries. *)
Definition resolve_language (r : Run) : Run :=
  if negb (m_wLanguage (this r) =? 0) then
    let '(_, codepage, r) :=
      GetCodepageForLanguage (m_wLanguage (this r)) (u_codepage u) r in
    unless_fault r (fun r =>
    let temp := Printf.StringCch (20 - 1)
                  (Printf.fmt_0x 4 (m_wLanguage (this r))) in
    let r := upd (set_strLanguage temp) r in
    let temp := Printf.StringCch (20 - 1) (Printf.fmt_0x 4 codepage) in
    upd (set_strCodepage temp) r)
  else if Str.empty (m_strLanguage (this r))
          || Str.empty (m_strCodepage (this r)) then
    let r := log (CallVerQueryValue "\VarFileInfo\Translation") r in
    match VerQueryValue_translation (this r) with
    | Some lpTranslate =>
        let e0 := hd (u_entry u) lpTranslate in
        let temp := Printf.StringCch (20 - 1)
                      (Printf.fmt_pX 4 (wLanguage e0)) in
        let r := upd (set_strLanguage temp) r in
        let temp := Printf.StringCch (20 - 1)
                      (Printf.fmt_pX 4 (wCodePage e0)) in
        upd (set_strCodepage temp) r
    | None => r
    end
  else r.

Definition query_all (r : Run) : Run :=
  let r := QueryValue "CompanyName" m_strCompanyName r in
  let r := QueryValue "FileDescription" m_strFileDescription r in
  let r := QueryValue "FileVersion" m_strFileVersion r in
  let r := QueryValue "InternalName" m_strInternalName r in
  let r := QueryValue "LegalCopyright" m_strLegalCopyright r in
  let r := QueryValue "OriginalFilename" m_strOriginalFilename r in
  let r := QueryValue "ProductName" m_strProductName r in
  let r := QueryValue "ProductVersion" m_strProductVersion r in
  let r := QueryValue "Comments" m_strComments r in
  let r := QueryValue "SpecialBuild" m_strSpecialBuild r in
  QueryValue "PrivateBuild" m_strPrivateBuild r.

(** A sequence of [QueryValue] calls, oldest first. *)
Fixpoint query_list (ks : list (string * StringMember)) (r : Run) : Run :=
  match ks with
  | [] => r
  | (szId, s) :: rest => query_list rest (QueryValue szId s r)
  end.

(** The identifier of the last call of the sequence that writes [k]. *)
Fixpoint last_query (ks : list (string * StringMember)) (k : StringMember)
  : option string :=
  match ks with
  | [] => None
  | (szId, s) :: rest =>
      match last_query rest k with
      | Some szId' => Some szId'
      | None => if StringMember_eqb k s then Some szId else None
      end
  end.

Definition queries : list (string * StringMember) :=
  [ ("CompanyName", m_strCompanyName);
    ("FileDescription", m_strFileDescription);
    ("FileVersion", m_strFileVersion);
    ("InternalName", m_strInternalName);
    ("LegalCopyright", m_strLegalCopyright);
    ("OriginalFilename", m_strOriginalFilename);
    ("ProductName", m_strProductName);
    ("ProductVersion", m_strProductVersion);
    ("Comments", m_strComments);
    ("SpecialBuild", m_strSpecialBuild);
    ("PrivateBuild", m_strPrivateBuild) ].

(** The three stages of [GetVersionInfo]. *)
Definition enter (r : Run) : Run :=
  let r := upd (set_dvi zero_dvi) (upd (set_FixedFileInfo zero_ffi) r) in
  if Str.empty (m_strFileName (this r))
  then log (CallGetModuleFileName NULL) r else r.

Definition read_resource (szFileName : string) (r : Run) : Run :=
  let r := log (CallGetFileVersionInfoSize szFileName) r in
  let dwVerInfoSize := GetFileVersionInfoSize P szFileName in
  if negb (dwVerInfoSize =? 0) then
    let r := upd (set_bVersionFound TRUE) r in
    let r := upd (set_pVffInfo (vff_allocated dwVerInfoSize)) r in
    let r := log (CallGetFileVersionInfo szFileName) r in
    match GetFileVersionInfo P szFileName with
    | Some b =>
        let r := upd (set_pVffInfo (vff_loaded dwVerInfoSize b)) r in
        let r := GetFixedVersionInfo r in
        if m_bVersionOnly (this r) =? FALSE then QueryStrings r else r
    | None => r
    end
  else r.

Definition call_DllGetVersion (hinstDll : HINSTANCE) (r : Run) : Run :=
  match GetProcAddress_DllGetVersion P hinstDll with
  | Some DllGetVersion =>
      let r := upd (fun o =>
                 set_dvi (set_cbSize sizeof_DLLVERSIONINFO (m_dvi o)) o) r in
      let r := log CallDllGetVersion r in
      let '(hr, dvi) := DllGetVersion (m_dvi (this r)) in
      let r := upd (set_dvi dvi) r in
      if FAILED hr
      then upd (fun o => set_dvi (set_cbSize 0 (m_dvi o)) o) r
      else r
  | None => r
  end.

Definition read_dll (szFileName : string) (r : Run) : Run :=
  if truthy (m_bDllVersion (this r)) then
    let r := log (CallLoadLibrary szFileName) r in
    let hinstDll := LoadLibrary P szFileName in
    if negb (hinstDll =? NULL) then
      let r := log (CallGetProcAddress hinstDll "DllGetVersion") r in
      log (CallFreeLibrary hinstDll) (call_DllGetVersion hinstDll r)
    else r
  else r.

(** The object and the log when a constructor reaches its call of
    [GetVersionInfo]. *)
Definition prepare (c : Construction) : Run :=
  match c with
  | ByVersionOnly b => start (members 0 b FALSE)
  | ByLanguage w => start (members w FALSE FALSE)
  | ByFileDll f b =>
      start (assign_if_not_null set_strFileName f (members 0 FALSE b))
  | ByFileLanguage f l cp =>
      start (assign_if_not_null set_strCodepage cp
              (assign_if_not_null set_strLanguage l
                (assign_if_not_null set_strFileName f
                  (members 0 FALSE FALSE))))
  | ByModule h =>
      upd (set_strFileName (GetModuleFileName P h))
          (log (CallGetModuleFileName h) (start (members 0 FALSE FALSE)))
  end.

(** The path [GetVersionInfo] puts in [szFileName]. *)
Definition szFileName_of (o : CVersionInfo) : string :=
  if Str.empty (m_strFileName o) then GetModuleFileName P NULL
  else Printf.StringCch MAX_PATH (m_strFileName o).

Definition target (c : Construction) : string :=
  szFileName_of (this (prepare c)).

(** The selector [QueryValue] builds for [szId], and what it stores for
    the answer of [VerQueryValue]. *)
Definition selector (o : CVersionInfo) (szId : string) : string :=
  Printf.StringCch (256 - 1)
    ("\StringFileInfo\" ++ m_strLanguage o ++ m_strCodepage o ++ "\" ++ szId).

Definition stored (answer : option string) : string :=
  match answer with
  | Some lpVersion =>
      if Str.empty lpVersion then lpVersion else trim_ws P lpVersion
  | None => ""
  end.

End Members.

(** The identifier under which [QueryStrings] asks for each member. *)
Definition szId_of (k : StringMember) : string :=
  match k with
  | m_strCompanyName => "CompanyName"
  | m_strFileDescription => "FileDescription"
  | m_strFileVersion => "FileVersion"
  | m_strInternalName => "InternalName"
  | m_strLegalCopyright => "LegalCopyright"
  | m_strOriginalFilename => "OriginalFilename"
  | m_strProductName => "ProductName"
  | m_strProductVersion => "ProductVersion"
  | m_strComments => "Comments"
  | m_strSpecialBuild => "SpecialBuild"
  | m_strPrivateBuild => "PrivateBuild"
  end.

(** What [QueryValue] leaves in a member when it asks for [szId] on [o]. *)
Definition answer (P : Platform) (o : CVersionInfo) (szId : string) : string :=
  stored P (VerQueryValue_string o (selector o szId)).

Definition with_str (f : StringMember -> string) (o : CVersionInfo) :=
  {| m_FixedFileInfo := m_FixedFileInfo o; m_pVffInfo := m_pVffInfo o;
     m_bVersionOnly := m_bVersionOnly o; m_bDllVersion := m_bDllVersion o;
     m_wLanguage := m_wLanguage o; m_bVersionFound := m_bVersionFound o;
     m_strFileName := m_strFileName o; m_strLanguage := m_strLanguage o;
     m_strCodepage := m_strCodepage o; m_str := f; m_dvi := m_dvi o |}.

(** [m_dvi] as [GetFixedVersionInfo] rewrites it from the fixed info. *)
Definition dvi_of_fixed (ffi : VS_FIXEDFILEINFO) (d : DLLVERSIONINFO)
  : DLLVERSIONINFO :=
  {| cbSize := cbSize d;
     dwMajorVersion := HIWORD (dwFileVersionMS ffi);
     dwMinorVersion := LOWORD (dwFileVersionMS ffi);
     dwBuildNumber := HIWORD (dwFileVersionLS ffi);
     dwPlatformID := dwPlatformID d |}.

(** The run once [GetFileVersionInfo] has filled the buffer with [b]. *)
Definition loaded_run (P : Platform) (sz : string) (b : VersionBlock)
    (r : Run) : Run :=
  upd (set_pVffInfo (vff_loaded (GetFileVersionInfoSize P sz) b))
    (log (CallGetFileVersionInfo sz)
      (upd (set_pVffInfo (vff_allocated (GetFileVersionInfoSize P sz)))
        (upd (set_bVersionFound TRUE)
          (log (CallGetFileVersionInfoSize sz) r)))).

(** The [FreeLibrary] calls of a log. *)
Definition is_free (c : OsCall) : bool :=
  match c with
  | CallFreeLibrary _ => true
  | _ => false
  end.

Definition frees (l : list OsCall) : list OsCall := filter is_free l.

(** *** Accessors *)

Definition GetFileVersion (o : CVersionInfo) := m_str o m_strFileVersion.
Definition GetPrivateBuild (o : CVersionInfo) := m_str o m_strPrivateBuild.
Definition GetSpecialBuild (o : CVersionInfo) := m_str o m_strSpecialBuild.
Definition GetCompanyName (o : CVersionInfo) := m_str o m_strCompanyName.
Definition GetFileDescription (o : CVersionInfo) :=
  m_str o m_strFileDescription.
Definition GetInternalName (o : CVersionInfo) := m_str o m_strInternalName.
Definition GetLegalCopyright (o : CVersionInfo) :=
  m_str o m_strLegalCopyright.
Definition GetOriginalFilename (o : CVersionInfo) :=
  m_str o m_strOriginalFilename.
Definition GetProductVersion (o : CVersionInfo) :=
  m_str o m_strProductVersion.
Definition GetComments (o : CVersionInfo) := m_str o m_strComments.

(** Modelled from the spec: the accessor of the product name, the one
    string accessor that version.cpp does not define; like the ten others
    it is a projection of the member that [QueryStrings] fills. *)
Definition GetProductName (o : CVersionInfo) := m_str o m_strProductName.

Definition GetFixedProductVersion (o : CVersionInfo) : string :=
  if negb (truthy (m_bVersionFound o)) then ""
  else MakeVersionString (dwProductVersionMS (m_FixedFileInfo o))
                         (dwProductVersionLS (m_FixedFileInfo o)).

Definition GetFixedFileVersion (o : CVersionInfo) : string :=
  if negb (truthy (m_bVersionFound o)) then ""
  else MakeVersionString (dwFileVersionMS (m_FixedFileInfo o))
                         (dwFileVersionLS (m_FixedFileInfo o)).

(** [GetFixedFileVersion(unsigned& versionMS, unsigned& versionLS)]: the
    return value and the two referenced variables after the call. *)
Definition GetFixedFileVersion_out (o : CVersionInfo)
    (versionMS versionLS : DWORD) : BOOL * DWORD * DWORD :=
  if truthy (m_bVersionFound o) then
    (TRUE, dwFileVersionMS (m_FixedFileInfo o),
           dwFileVersionLS (m_FixedFileInfo o))
  else (FALSE, versionMS, versionLS).

(** The accessor of each member. *)
Definition getter (k : StringMember) : CVersionInfo -> string :=
  match k with
  | m_strCompanyName => GetCompanyName
  | m_strFileDescription => GetFileDescription
  | m_strFileVersion => GetFileVersion
  | m_strInternalName => GetInternalName
  | m_strLegalCopyright => GetLegalCopyright
  | m_strOriginalFilename => GetOriginalFilename
  | m_strProductName => GetProductName
  | m_strProductVersion => GetProductVersion
  | m_strComments => GetComments
  | m_strSpecialBuild => GetSpecialBuild
  | m_strPrivateBuild => GetPrivateBuild
  end.

(** The eleven string accessors, by member. *)
Definition string_getters : list (CVersionInfo -> string) :=
  [ GetCompanyName; GetFileDescription; GetFileVersion; GetInternalName;
    GetLegalCopyright; GetOriginalFilename; GetProductName;
    GetProductVersion; GetComments; GetSpecialBuild; GetPrivateBuild ].

(** The formatting rule in the specification's words: the four 16-bit
    components in decimal, joined by dots, the last one left out when it
    is zero. *)
Definition spec_version_string (major minor build revision : Z) : string :=
  if revision =? 0 then
    Printf.fmt_d major ++ "." ++ Printf.fmt_d minor ++ "." ++ Printf.fmt_d build
  else
    Printf.fmt_d major ++ "." ++ Printf.fmt_d minor ++ "." ++
    Printf.fmt_d build ++ "." ++ Printf.fmt_d revision.

(** *** Reading a version string back *)

(** The fields of [s] between occurrences of [sep]. *)
Fixpoint split_on (sep : ascii) (s : string) : list string :=
  match s with
  | EmptyString => [EmptyString]
  | String c s' =>
      if Ascii.eqb c sep then EmptyString :: split_on sep s'
      else match split_on sep s' with
           | h :: t => String c h :: t
           | [] => [String c EmptyString]
           end
  end.

Fixpoint has_char (sep : ascii) (s : string) : bool :=
  match s with
  | EmptyString => false
  | String c s' => Ascii.eqb c sep || has_char sep s'
  end.

Definition digit_of (c : ascii) : option Z :=
  let n := Z.of_N (N_of_ascii c) in
  if (48 <=? n) && (n <=? 57) then Some (n - 48) else None.

Fixpoint parse_digits (acc : Z) (s : string) : option Z :=
  match s with
  | EmptyString => Some acc
  | String c s' =>
      match digit_of c with
      | Some d => parse_digits (10 * acc + d) s'
      | None => None
      end
  end.

(** A non-empty run of decimal digits. *)
Definition parse_dec (s : string) : option Z :=
  match s with
  | EmptyString => None
  | _ => parse_digits 0 s
  end.

(** A text of three or four dotted decimal numbers; a missing fourth
    number reads as zero. *)
Definition parse_version (s : string) : option (Z * Z * Z * Z) :=
  match List.map parse_dec (split_on "." s) with
  | [Some a; Some b; Some c] => Some (a, b, c, 0)
  | [Some a; Some b; Some c; Some d] => Some (a, b, c, d)
  | _ => None
  end.

(** *** Kinds of calls in a log *)

Definition is_query (c : OsCall) : bool :=
  match c with
  | CallVerQueryValue _ => true
  | _ => false
  end.

Definition is_load (c : OsCall) : bool :=
  match c with
  | CallLoadLibrary _ => true
  | _ => false
  end.

Definition is_info_load (c : OsCall) : bool :=
  match c with
  | CallGetFileVersionInfo _ => true
  | _ => false
  end.

(** The calls that belong to the DLL stage. *)
Definition is_dll_call (c : OsCall) : bool :=
  match c with
  | CallLoadLibrary _ | CallGetProcAddress _ _ | CallDllGetVersion
  | CallFreeLibrary _ => true
  | _ => false
  end.

Definition is_path_call (c : OsCall) : bool :=
  match c with
  | CallGetModuleFileName _ => true
  | _ => false
  end.

(** The calls that belong to the resource stage. *)
Definition is_resource_call (c : OsCall) : bool :=
  match c with
  | CallGetFileVersionInfoSize _ | CallGetFileVersionInfo _
  | CallVerQueryValue _ => true
  | _ => false
  end.

(** The calls of the DLL stage for the path [sz], in order. *)
Definition dll_sequence (P : Platform) (bDllVersion : BOOL) (sz : string)
  : list OsCall :=
  if truthy bDllVersion then
    CallLoadLibrary sz ::
    (if negb (LoadLibrary P sz =? NULL) then
       CallGetProcAddress (LoadLibrary P sz) "DllGetVersion" ::
       (match GetProcAddress_DllGetVersion P (LoadLibrary P sz) with
        | Some _ => [CallDllGetVersion]
        | None => []
        end ++ [CallFreeLibrary (LoadLibrary P sz)])
     else [])
  else [].

(** The calls that take a file path take [sz]. *)
Definition on_path (sz : string) (c : OsCall) : Prop :=
  match c with
  | CallGetFileVersionInfoSize g | CallGetFileVersionInfo g
  | CallLoadLibrary g => g = sz
  | _ => True
  end.

(** The identifiers of the eleven queries, in the order of the source. *)
Definition field_names : list string :=
  [ "CompanyName"; "FileDescription"; "FileVersion"; "InternalName";
    "LegalCopyright"; "OriginalFilename"; "ProductName"; "ProductVersion";
    "Comments"; "SpecialBuild"; "PrivateBuild" ].

End Version.

(** ** Environment.cpp *)

Module Environment.

(** What a call that may throw yields. *)
Inductive Exception :=
| NotFoundException (message : string)
| SystemException (message : string).

Inductive Result (A : Type) :=
| Ok (value : A)
| Throw (e : Exception).

Arguments Ok {A} value.
Arguments Throw {A} e.

(** [NodeId] is an array of six [UInt8]. *)
Definition NodeId := list byte.

Definition at_index (id : NodeId) (i : nat) : Z :=
  Z.of_N (Byte.to_N (nth i id "000"%byte)).

(** The platform backend [EnvironmentImpl], chosen when the file is
    compiled; the facade uses these three of its functions in the members
    modelled here. *)
Record EnvironmentImpl := {
  getImpl : string -> Result string;
  hasImpl : string -> bool;
  nodeIdImpl : NodeId
}.

Section Facade.

Variable impl : EnvironmentImpl.

(** [Environment::get(name)] *)
Definition get (name : string) : Result string := getImpl impl name.

(** [Environment::has(name)] *)
Definition has (name : string) : bool := hasImpl impl name.

(** [Environment::get(name, defaultValue)] *)
Definition get_default (name defaultValue : string) : Result string :=
  if has name then get name else Ok defaultValue.

(** [Environment::nodeId(NodeId& id)] *)
Definition nodeId_bytes : NodeId := nodeIdImpl impl.

(** [Environment::nodeId()]; [result] has 18 elements. *)
Definition nodeId : option string :=
  let id := nodeId_bytes in
  Printf.sprintf_s 18
    (Printf.fmt_0x 2 (at_index id 0) ++ ":" ++
     Printf.fmt_0x 2 (at_index id 1) ++ ":" ++
     Printf.fmt_0x 2 (at_index id 2) ++ ":" ++
     Printf.fmt_0x 2 (at_index id 3) ++ ":" ++
     Printf.fmt_0x 2 (at_index id 4) ++ ":" ++
     Printf.fmt_0x 2 (at_index id 5)).

End Facade.

(** The pattern of the specification: [n] groups of two lowercase
    hexadecimal digits, joined by colons. *)
Definition is_lower_hex (c : ascii) : bool :=
  let n := nat_of_ascii c in
  (((48 <=? n) && (n <=? 57)) || ((97 <=? n) && (n <=? 102)))%nat.

Fixpoint hex_pairs (n : nat) (s : string) : bool :=
  match n, s with
  | 1%nat, String a (String b EmptyString) =>
      is_lower_hex a && is_lower_hex b
  | S (S _ as m), String a (String b (String ":" rest)) =>
      is_lower_hex a && is_lower_hex b && hex_pairs m rest
  | _, _ => false
  end.

(** The value of a lowercase hexadecimal digit and of a two-digit pair. *)
Definition digit_value (c : ascii) : option N :=
  let n := N_of_ascii c in
  if ((48 <=? n) && (n <=? 57))%N then Some (n - 48)%N
  else if ((97 <=? n) && (n <=? 102))%N then Some (n - 87)%N
  else None.

Definition pair_value (s : string) : option N :=
  match s with
  | String a (String b EmptyString) =>
      match digit_value a, digit_value b with
      | Some x, Some y => Some (16 * x + y)%N
      | _, _ => None
      end
  | _ => None
  end.

(** The [i]-th pair of a node identifier text. *)
Definition pair_at (i : nat) (s : string) : string := substring (3 * i) 2 s.

(** Reading a node identifier text back: [n] pairs joined by colons. *)
Definition byte_of_pair (s : string) : option byte :=
  match pair_value s with
  | Some v => Byte.of_N v
  | None => None
  end.

Definition parse_node_id (s : string) : option NodeId :=
  let fields := Version.split_on ":" s in
  List.fold_right
    (fun f acc =>
       match byte_of_pair f, acc with
       | Some b, Some l => Some (b :: l)
       | _, _ => None
       end)
    (Some []) fields.

End Environment.

(** ** Sample platforms *)

Module Sample.
Import Version.

Definition is_ws (c : ascii) : bool :=
  match c with
  | " " | "009" | "010" | "013" => true
  | _ => false
  end%char.

Fixpoint ltrim (s : string) : string :=
  match s with
  | EmptyString => EmptyString
  | String c s' => if is_ws c then ltrim s' else s
  end.

Fixpoint rtrim (s : string) : string :=
  match s with
  | EmptyString => EmptyString
  | String c s' =>
      match rtrim s' with
      | EmptyString => if is_ws c then EmptyString else String c EmptyString
      | t => String c t
      end
  end.

Definition trim (s : string) : string := rtrim (ltrim s).

Definition lower (c : ascii) : ascii :=
  let n := nat_of_ascii c in
  if ((65 <=? n) && (n <=? 90))%nat then ascii_of_nat (n + 32) else c.

(** Sub-block names are compared without regard to case. *)
Fixpoint assoc (kvs : list (string * string)) (k : string) : option string :=
  match kvs with
  | [] => None
  | (k', v) :: rest =>
      if String.eqb (Str.map lower k') (Str.map lower k) then Some v
      else assoc rest k
  end.

Definition ffi (fileMS fileLS prodMS prodLS : DWORD) : VS_FIXEDFILEINFO :=
  {| dwSignature := 4277077181; dwStrucVersion := 65536;
     dwFileVersionMS := fileMS; dwFileVersionLS := fileLS;
     dwProductVersionMS := prodMS; dwProductVersionLS := prodLS;
     dwFileFlagsMask := 63; dwFileFlags := 0; dwFileOS := 4;
     dwFileType := 1; dwFileSubtype := 0;
     dwFileDateMS := 0; dwFileDateLS := 0 |}.

(** A resource with file version 1.2.3.4, product version 2.14.0.0, one
    translation entry (US English, Unicode) and strings under it. *)
Definition app_block : VersionBlock :=
  {| vq_root := Some (ffi 65538 196612 131086 0);
     vq_translation := Some [ {| wLanguage := 1033; wCodePage := 1200 |} ];
     vq_string := assoc
       [ ("\StringFileInfo\040904B0\CompanyName", " Acme Corp ");
         ("\StringFileInfo\040904B0\FileVersion", "1.2.3.4");
         ("\StringFileInfo\040904B0\ProductName", "Widget") ] |}.

(** "app.exe" carries [app_block]; "broken.exe" reports a size and then
    fails to load; any other path has no version resource.  "app.exe"
    loads as a module and exports no [DllGetVersion]. *)
Definition os : Platform :=
  {| GetModuleFileName := fun _ => "app.exe";
     GetFileVersionInfoSize := fun f =>
       if String.eqb f "app.exe" then 1024
       else if String.eqb f "broken.exe" then 512 else 0;
     GetFileVersionInfo := fun f =>
       if String.eqb f "app.exe" then Some app_block else None;
     LoadLibrary := fun f => if String.eqb f "app.exe" then 4194304 else NULL;
     GetProcAddress_DllGetVersion := fun _ => None;
     trim_ws := trim |}.

Definition clean : Uninit :=
  {| u_bVersionFound := FALSE; u_codepage := 0; u_cbTranslate := 0;
     u_entry := {| wLanguage := 0; wCodePage := 0 |} |}.

(** Storage that still holds what an earlier frame left there: a nonzero
    flag, the codepage 1200 and a count that is the size of nothing. *)
Definition stale : Uninit :=
  {| u_bVersionFound := TRUE; u_codepage := 1200;
     u_cbTranslate := 3435973836;
     u_entry := {| wLanguage := 0; wCodePage := 0 |} |}.

(** A resource whose translation table names German only, while its one
    string table is the US English one. *)
Definition mixed_block : VersionBlock :=
  {| vq_root := Some (ffi 65538 196612 131086 0);
     vq_translation := Some [ {| wLanguage := 1031; wCodePage := 1200 |} ];
     vq_string := assoc
       [ ("\StringFileInfo\040904B0\CompanyName", "Acme Corp") ] |}.

Definition os_mixed : Platform :=
  {| GetModuleFileName := fun _ => "mixed.exe";
     GetFileVersionInfoSize := fun _ => 1024;
     GetFileVersionInfo := fun _ => Some mixed_block;
     LoadLibrary := fun _ => NULL;
     GetProcAddress_DllGetVersion := fun _ => None;
     trim_ws := trim |}.

(** An environment backend over a list of variables. *)
Definition env_lookup := fix lookup (vars : list (string * string))
    (name : string) : option string :=
  match vars with
  | [] => None
  | (n, v) :: rest => if String.eqb n name then Some v else lookup rest name
  end.

Definition backend (vars : list (string * string)) (id : Environment.NodeId)
  : Environment.EnvironmentImpl :=
  {| Environment.getImpl := fun name =>
       match env_lookup vars name with
       | Some v => Environment.Ok v
       | None => Environment.Throw (Environment.NotFoundException name)
       end;
     Environment.hasImpl := fun name =>
       match env_lookup vars name with Some _ => true | None => false end;
     Environment.nodeIdImpl := id |}.

Definition host : Environment.EnvironmentImpl :=
  backend [("PATH", "C:\Windows"); ("TEMP", "C:\Temp")]
    [ "000"; "026"; "043"; "060"; "077"; "094" ]%byte.

End Sample.

(** * Properties *)

(** ** Strings, formatting and words *)

Module StrFacts.

Lemma length_app (s t : string) :
  String.length (s ++ t) = (String.length s + String.length t)%nat.
Proof.
  induction s as [|c s IH]; simpl; [reflexivity|].
  now rewrite IH.
Qed.

Lemma take_all (n : nat) (s : string) :
  (String.length s <= n)%nat -> Str.take n s = s.
Proof.
  revert s; induction n as [|n IH]; intros [|c s] H; simpl in *;
    try reflexivity; try lia.
  f_equal; apply IH; lia.
Qed.

Lemma length_take (n : nat) (s : string) :
  (String.length (Str.take n s) <= n)%nat.
Proof.
  revert s; induction n as [|n IH]; intros [|c s]; simpl; try lia.
  specialize (IH s); lia.
Qed.

Lemma empty_true (s : string) : Str.empty s = true <-> s = "".
Proof. destruct s; simpl; split; congruence. Qed.

End StrFacts.

Module PrintfFacts.
Import Printf.

Lemma StringCch_fits (cch : nat) (s : string) :
  (String.length s < cch)%nat -> StringCch cch s = s.
Proof. intros H; apply StrFacts.take_all; lia. Qed.

Lemma all_words_spec (bits : nat) (p : Z -> bool) :
  forall pre, all_words bits pre p = true ->
  forall z, pre * 2 ^ Z.of_nat bits <= z < (pre + 1) * 2 ^ Z.of_nat bits ->
  p z = true.
Proof.
  induction bits as [|b IH]; intros pre H z Hz.
  - simpl in *. assert (z = pre) by lia. now subst.
  - cbn [all_words] in H. apply andb_true_iff in H as [H0 H1].
    rewrite Nat2Z.inj_succ, Z.pow_succ_r in Hz by lia.
    destruct (Z_lt_le_dec z ((2 * pre + 1) * 2 ^ Z.of_nat b)).
    + apply (IH _ H0). lia.
    + apply (IH _ H1). lia.
Qed.

Lemma fmt_d_word_length (w : Z) :
  0 <= w < 65536 -> (String.length (fmt_d w) <= 5)%nat.
Proof.
  intros H.
  assert (C : all_words 16 0 (fun z => (String.length (fmt_d z) <=? 5)%nat) = true)
    by (vm_compute; reflexivity).
  apply Nat.leb_le, (all_words_spec _ _ _ C).
  change (2 ^ Z.of_nat 16) with 65536. lia.
Qed.

Lemma fmt_0x_word_length (w : Z) :
  0 <= w < 65536 -> String.length (fmt_0x 4 w) = 4%nat.
Proof.
  intros H.
  assert (C : all_words 16 0 (fun z => (String.length (fmt_0x 4 z) =? 4)%nat) = true)
    by (vm_compute; reflexivity).
  apply Nat.eqb_eq, (all_words_spec _ _ _ C).
  change (2 ^ Z.of_nat 16) with 65536. lia.
Qed.

Lemma fmt_pX_word_length (w : Z) :
  0 <= w < 65536 -> String.length (fmt_pX 4 w) = 4%nat.
Proof.
  intros H.
  assert (C : all_words 16 0 (fun z => (String.length (fmt_pX 4 z) =? 4)%nat) = true)
    by (vm_compute; reflexivity).
  apply Nat.eqb_eq, (all_words_spec _ _ _ C).
  change (2 ^ Z.of_nat 16) with 65536. lia.
Qed.

End PrintfFacts.

Module WordFacts.

Lemma LOWORD_mod (l : Z) : LOWORD l = l mod 65536.
Proof.
  unfold LOWORD. change 65535 with (Z.ones 16).
  now rewrite Z.land_ones by lia.
Qed.

Lemma HIWORD_div (l : Z) : 0 <= l < 4294967296 -> HIWORD l = l / 65536.
Proof.
  intros H. unfold HIWORD. change 65535 with (Z.ones 16).
  rewrite Z.land_ones by lia.
  rewrite Z.shiftr_div_pow2 by lia.
  change (2 ^ 16) with 65536.
  apply Z.mod_small. split.
  - apply Z.div_pos; lia.
  - apply Z.div_lt_upper_bound; lia.
Qed.

Lemma LOWORD_range (l : Z) : 0 <= LOWORD l < 65536.
Proof. rewrite LOWORD_mod. apply Z.mod_pos_bound; lia. Qed.

Lemma HIWORD_range (l : Z) : 0 <= HIWORD l < 65536.
Proof.
  unfold HIWORD. change 65535 with (Z.ones 16).
  rewrite Z.land_ones by lia.
  apply Z.mod_pos_bound; lia.
Qed.

End WordFacts.


(** ** Facts about the member functions *)

Module VersionFacts.
Import Version.

Section Facts.

Variable P : Platform.
Variable u : Uninit.

Lemma GetVersionInfo_unless (r : Run) :
  GetVersionInfo P u r =
  unless_fault (read_resource P u (szFileName_of P (this r)) (enter r))
    (read_dll P (szFileName_of P (this r))).
Proof.
  unfold GetVersionInfo, read_dll, read_resource, enter, szFileName_of,
    call_DllGetVersion.
  cbn [this upd m_strFileName set_dvi set_FixedFileInfo].
  destruct (Str.empty (m_strFileName (this r))); reflexivity.
Qed.

(** A run that has not faulted in the resource stage goes on with the DLL
    stage; one that has stops there. *)
Lemma GetVersionInfo_stages (r : Run) :
  fault (read_resource P u (szFileName_of P (this r)) (enter r)) = false ->
  GetVersionInfo P u r =
  read_dll P (szFileName_of P (this r))
    (read_resource P u (szFileName_of P (this r)) (enter r)).
Proof.
  intros H. rewrite GetVersionInfo_unless. unfold unless_fault. now rewrite H.
Qed.

Lemma GetVersionInfo_cases (r : Run) :
  let r1 := read_resource P u (szFileName_of P (this r)) (enter r) in
  (fault r1 = false /\
   GetVersionInfo P u r = read_dll P (szFileName_of P (this r)) r1) \/
  (fault r1 = true /\ GetVersionInfo P u r = r1).
Proof.
  intros r1. rewrite GetVersionInfo_unless. fold r1. unfold unless_fault.
  destruct (fault r1); [right|left]; split; reflexivity.
Qed.

Lemma construct_prepare (c : Construction) :
  construct P u c = GetVersionInfo P u (prepare P u c).
Proof. destruct c; reflexivity. Qed.

(** [QueryValue] stores the answer to one selector in one member. *)
Lemma QueryValue_this (szId : string) (k : StringMember) (r : Run) :
  this (QueryValue P szId k r) =
  set_str k (stored P (VerQueryValue_string (this r)
                         (selector (this r) szId))) (this r).
Proof.
  unfold QueryValue, stored, selector. cbn [this log].
  destruct (VerQueryValue_string _ _) as [v|]; [|reflexivity].
  destruct (Str.empty v); reflexivity.
Qed.

Lemma QueryValue_calls (szId : string) (k : StringMember) (r : Run) :
  calls (QueryValue P szId k r) =
  (calls r ++ [CallVerQueryValue (selector (this r) szId)])%list.
Proof.
  unfold QueryValue, selector. cbn [this log].
  destruct (VerQueryValue_string _ _) as [v|]; [|reflexivity].
  destruct (Str.empty v); reflexivity.
Qed.

Lemma QueryStrings_unless (r : Run) :
  QueryStrings P u r = unless_fault (resolve_language u r) (query_all P).
Proof. unfold QueryStrings, query_all. reflexivity. Qed.

Lemma QueryStrings_parts (r : Run) :
  fault (resolve_language u r) = false ->
  QueryStrings P u r = query_all P (resolve_language u r).
Proof.
  intros H. rewrite QueryStrings_unless. unfold unless_fault. now rewrite H.
Qed.

Lemma QueryStrings_cases (r : Run) :
  (fault (resolve_language u r) = false /\
   QueryStrings P u r = query_all P (resolve_language u r)) \/
  (fault (resolve_language u r) = true /\
   QueryStrings P u r = resolve_language u r).
Proof.
  rewrite QueryStrings_unless. unfold unless_fault.
  destruct (fault (resolve_language u r)); [right|left]; split; reflexivity.
Qed.

Lemma QueryValue_fault (szId : string) (k : StringMember) (r : Run) :
  fault (QueryValue P szId k r) = fault r.
Proof.
  unfold QueryValue. cbn [this log].
  destruct (VerQueryValue_string _ _) as [v|]; [|reflexivity].
  destruct (Str.empty v); reflexivity.
Qed.

Lemma query_all_list (r : Run) : query_all P r = query_list P queries r.
Proof. unfold query_all, queries. cbn [query_list]. reflexivity. Qed.

Lemma with_str_self (o : CVersionInfo) : with_str (m_str o) o = o.
Proof. destruct o; reflexivity. Qed.

Lemma query_list_this (ks : list (string * StringMember)) :
  forall r, exists f,
    this (query_list P ks r) = with_str f (this r) /\
    forall k, f k = match last_query ks k with
                    | Some szId => answer P (this r) szId
                    | None => m_str (this r) k
                    end.
Proof.
  induction ks as [|[szId s] ks IH]; intros r.
  - exists (m_str (this r)). split; [|reflexivity].
    cbn [query_list]. now rewrite with_str_self.
  - cbn [query_list last_query].
    destruct (IH (QueryValue P szId s r)) as (f & Ef & Hf).
    exists f. rewrite Ef, QueryValue_this. split; [reflexivity|].
    intros k. rewrite Hf, QueryValue_this.
    destruct (last_query ks k); [reflexivity|].
    cbn [m_str set_str]. unfold answer.
    destruct (StringMember_eqb k s); reflexivity.
Qed.

Lemma query_list_calls (ks : list (string * StringMember)) :
  forall r,
    calls (query_list P ks r) =
    (calls r ++
     List.map (fun p => CallVerQueryValue (selector (this r) (fst p))) ks)%list.
Proof.
  induction ks as [|[szId s] ks IH]; intros r; cbn [query_list List.map fst].
  - now rewrite app_nil_r.
  - rewrite IH, QueryValue_calls, QueryValue_this, <- app_assoc.
    reflexivity.
Qed.

Lemma query_list_fault (ks : list (string * StringMember)) :
  forall r, fault (query_list P ks r) = fault r.
Proof.
  induction ks as [|[szId s] ks IH]; intros r; cbn [query_list].
  - reflexivity.
  - now rewrite IH, QueryValue_fault.
Qed.

Lemma query_all_fault (r : Run) : fault (query_all P r) = fault r.
Proof. rewrite query_all_list. apply query_list_fault. Qed.

(** After the eleven queries every member holds what was stored for its
    own selector, and no other member has changed. *)
Lemma query_all_this (r : Run) :
  exists f,
    this (query_all P r) = with_str f (this r) /\
    forall k, f k = answer P (this r) (szId_of k).
Proof.
  rewrite query_all_list.
  destruct (query_list_this queries r) as (f & Ef & Hf).
  exists f. split; [exact Ef|].
  intros k. rewrite Hf. destruct k; reflexivity.
Qed.

(** *** [GetFixedVersionInfo] *)

Lemma GetFixedVersionInfo_this (r : Run) :
  this (GetFixedVersionInfo r) =
  let ffi := match VerQueryValue_root (this r) with
             | Some pffi => pffi
             | None => zero_ffi
             end in
  set_dvi (dvi_of_fixed ffi (m_dvi (this r))) (set_FixedFileInfo ffi (this r)).
Proof.
  unfold GetFixedVersionInfo. cbn [this log].
  destruct (VerQueryValue_root (this r)); reflexivity.
Qed.

Lemma GetFixedVersionInfo_calls (r : Run) :
  calls (GetFixedVersionInfo r) = (calls r ++ [CallVerQueryValue "\"])%list.
Proof.
  unfold GetFixedVersionInfo. cbn [this log].
  destruct (VerQueryValue_root (this r)); reflexivity.
Qed.

(** *** The language and codepage texts *)

Lemma resolve_language_by_id (r : Run)
    (tbl : list LANGUAGEANDCODEPAGE) :
  m_wLanguage (this r) <> 0 ->
  VerQueryValue_translation (this r) = Some tbl ->
  fault r = false ->
  let codepage :=
    snd (scan_translation tbl (m_wLanguage (this r)) (u_codepage u)) in
  this (resolve_language u r) =
    set_strCodepage (Printf.StringCch (20 - 1) (Printf.fmt_0x 4 codepage))
      (set_strLanguage
         (Printf.StringCch (20 - 1) (Printf.fmt_0x 4 (m_wLanguage (this r))))
         (this r)) /\
  calls (resolve_language u r) =
    (calls r ++ [CallVerQueryValue "\VarFileInfo\Translation"])%list.
Proof.
  intros H Ht Hf. unfold resolve_language, GetCodepageForLanguage.
  apply Z.eqb_neq in H. rewrite H. cbn [negb this log]. rewrite Ht.
  destruct (scan_translation _ _ _) as [bFound cp].
  unfold unless_fault. cbn [fault log snd]. rewrite Hf. split; reflexivity.
Qed.



Lemma resolve_language_fault_zero (r : Run) :
  m_wLanguage (this r) = 0 ->
  fault (resolve_language u r) = fault r.
Proof.
  intros H0. unfold resolve_language. rewrite H0. cbn [Z.eqb negb].
  destruct (Str.empty _ || Str.empty _); [|reflexivity].
  cbn [this log]. now destruct (VerQueryValue_translation (this r)).
Qed.

Lemma resolve_language_fault_table (r : Run) :
  VerQueryValue_translation (this r) <> None ->
  fault (resolve_language u r) = fault r.
Proof.
  intros Ht. unfold resolve_language, GetCodepageForLanguage.
  destruct (negb (m_wLanguage (this r) =? 0)).
  - cbn [this log].
    destruct (VerQueryValue_translation (this r)) as [tbl|];
      [|contradiction].
    destruct (scan_translation _ _ _) as [bFound cp].
    unfold unless_fault. cbn [fault log].
    destruct (fault r) eqn:E; cbn [fault log upd]; assumption.
  - destruct (Str.empty _ || Str.empty _); [|reflexivity].
    cbn [this log]. now destruct (VerQueryValue_translation (this r)).
Qed.

Lemma resolve_language_first_entry (r : Run)
    (lpTranslate : list LANGUAGEANDCODEPAGE) :
  m_wLanguage (this r) = 0 ->
  Str.empty (m_strLanguage (this r)) || Str.empty (m_strCodepage (this r))
    = true ->
  VerQueryValue_translation (this r) = Some lpTranslate ->
  let e0 := hd (u_entry u) lpTranslate in
  this (resolve_language u r) =
    set_strCodepage (Printf.StringCch (20 - 1) (Printf.fmt_pX 4 (wCodePage e0)))
      (set_strLanguage
         (Printf.StringCch (20 - 1) (Printf.fmt_pX 4 (wLanguage e0)))
         (this r)) /\
  calls (resolve_language u r) =
    (calls r ++ [CallVerQueryValue "\VarFileInfo\Translation"])%list.
Proof.
  intros H0 He Ht. unfold resolve_language.
  rewrite H0, He. cbn [Z.eqb negb this log]. rewrite Ht. split; reflexivity.
Qed.

Lemma resolve_language_no_table (r : Run) :
  m_wLanguage (this r) = 0 ->
  Str.empty (m_strLanguage (this r)) || Str.empty (m_strCodepage (this r))
    = true ->
  VerQueryValue_translation (this r) = None ->
  resolve_language u r = log (CallVerQueryValue "\VarFileInfo\Translation") r.
Proof.
  intros H0 He Ht. unfold resolve_language.
  rewrite H0, He. cbn [Z.eqb negb this log]. now rewrite Ht.
Qed.

Lemma resolve_language_given (r : Run) :
  m_wLanguage (this r) = 0 ->
  Str.empty (m_strLanguage (this r)) || Str.empty (m_strCodepage (this r))
    = false ->
  resolve_language u r = r.
Proof.
  intros H0 He. unfold resolve_language. now rewrite H0, He.
Qed.

(** *** The resource stage *)

Lemma read_resource_absent (sz : string) (r : Run) :
  GetFileVersionInfoSize P sz = 0 ->
  read_resource P u sz r = log (CallGetFileVersionInfoSize sz) r.
Proof. intros H. unfold read_resource. now rewrite H. Qed.

Lemma read_resource_load_failed (sz : string) (r : Run) :
  GetFileVersionInfoSize P sz <> 0 ->
  GetFileVersionInfo P sz = None ->
  read_resource P u sz r =
    log (CallGetFileVersionInfo sz)
      (upd (set_pVffInfo (vff_allocated (GetFileVersionInfoSize P sz)))
        (upd (set_bVersionFound TRUE)
          (log (CallGetFileVersionInfoSize sz) r))).
Proof.
  intros Hs Hl. unfold read_resource.
  apply Z.eqb_neq in Hs. now rewrite Hs, Hl.
Qed.

Lemma read_resource_version_only (sz : string) (b : VersionBlock) (r : Run) :
  GetFileVersionInfoSize P sz <> 0 ->
  GetFileVersionInfo P sz = Some b ->
  m_bVersionOnly (this r) <> FALSE ->
  read_resource P u sz r = GetFixedVersionInfo (loaded_run P sz b r).
Proof.
  intros Hs Hl Hv. unfold read_resource.
  apply Z.eqb_neq in Hs. rewrite Hs, Hl. cbn [negb].
  fold (loaded_run P sz b r).
  rewrite GetFixedVersionInfo_this. cbn.
  apply Z.eqb_neq in Hv. now rewrite Hv.
Qed.

Lemma read_resource_full (sz : string) (b : VersionBlock) (r : Run) :
  GetFileVersionInfoSize P sz <> 0 ->
  GetFileVersionInfo P sz = Some b ->
  m_bVersionOnly (this r) = FALSE ->
  read_resource P u sz r =
    QueryStrings P u (GetFixedVersionInfo (loaded_run P sz b r)).
Proof.
  intros Hs Hl Hv. unfold read_resource.
  apply Z.eqb_neq in Hs. rewrite Hs, Hl. cbn [negb].
  fold (loaded_run P sz b r).
  rewrite GetFixedVersionInfo_this. cbn.
  now rewrite Hv.
Qed.

(** *** The DLL stage *)

Lemma set_dvi_self (o : CVersionInfo) : set_dvi (m_dvi o) o = o.
Proof. destruct o; reflexivity. Qed.

Lemma call_DllGetVersion_this (h : HINSTANCE) (r : Run) :
  exists d, this (call_DllGetVersion P h r) = set_dvi d (this r).
Proof.
  unfold call_DllGetVersion.
  destruct (GetProcAddress_DllGetVersion P h) as [proc|].
  - cbn [this upd log]. destruct (proc _) as [hr dvi].
    destruct (FAILED hr); eexists; reflexivity.
  - exists (m_dvi (this r)). now rewrite set_dvi_self.
Qed.

Lemma call_DllGetVersion_frees (h : HINSTANCE) (r : Run) :
  frees (calls (call_DllGetVersion P h r)) = frees (calls r).
Proof.
  unfold call_DllGetVersion.
  destruct (GetProcAddress_DllGetVersion P h) as [proc|]; [|reflexivity].
  destruct (proc _) as [hr dvi].
  destruct (FAILED hr); cbn [calls upd log]; unfold frees;
    rewrite filter_app; cbn [filter is_free]; now rewrite app_nil_r.
Qed.

(** The DLL stage touches [m_dvi] only. *)
Lemma read_dll_this (sz : string) (r : Run) :
  exists d, this (read_dll P sz r) = set_dvi d (this r).
Proof.
  unfold read_dll.
  destruct (truthy (m_bDllVersion (this r)));
    [|exists (m_dvi (this r)); now rewrite set_dvi_self].
  destruct (negb (LoadLibrary P sz =? NULL));
    [|exists (m_dvi (this r)); now rewrite set_dvi_self].
  cbn [this log].
  destruct (call_DllGetVersion_this (LoadLibrary P sz)
              (log (CallGetProcAddress (LoadLibrary P sz) "DllGetVersion")
                 (log (CallLoadLibrary sz) r))) as [d Hd].
  exists d. exact Hd.
Qed.

(** Every successful [LoadLibrary] is followed by one [FreeLibrary] of the
    handle it returned, whatever [GetProcAddress] and [DllGetVersion] do. *)
Lemma read_dll_frees (sz : string) (r : Run) :
  frees (calls (read_dll P sz r)) =
  (frees (calls r) ++
   if truthy (m_bDllVersion (this r)) && negb (LoadLibrary P sz =? NULL)
   then [CallFreeLibrary (LoadLibrary P sz)] else [])%list.
Proof.
  unfold read_dll.
  destruct (truthy (m_bDllVersion (this r))); cbn [andb];
    [|now rewrite app_nil_r].
  destruct (negb (LoadLibrary P sz =? NULL)); cbn [calls log].
  - unfold frees at 1. rewrite filter_app. fold (frees (calls
      (call_DllGetVersion P (LoadLibrary P sz)
         (log (CallGetProcAddress (LoadLibrary P sz) "DllGetVersion")
            (log (CallLoadLibrary sz) r))))).
    rewrite call_DllGetVersion_frees. cbn [calls log].
    unfold frees. rewrite !filter_app. cbn. now rewrite !app_nil_r.
  - unfold frees. rewrite filter_app. cbn. now rewrite app_nil_r.
Qed.

Lemma read_dll_no_symbol (sz : string) (r : Run) :
  m_bDllVersion (this r) <> FALSE ->
  LoadLibrary P sz <> NULL ->
  GetProcAddress_DllGetVersion P (LoadLibrary P sz) = None ->
  read_dll P sz r =
    log (CallFreeLibrary (LoadLibrary P sz))
      (log (CallGetProcAddress (LoadLibrary P sz) "DllGetVersion")
        (log (CallLoadLibrary sz) r)).
Proof.
  intros Hd Hl Hp. unfold read_dll, truthy, call_DllGetVersion.
  apply Z.eqb_neq in Hd, Hl. unfold FALSE in Hd.
  rewrite Hd, Hl. cbn [negb]. now rewrite Hp.
Qed.

(** *** Frame properties *)

Lemma frees_snoc (l : list OsCall) (c : OsCall) :
  is_free c = false -> frees (l ++ [c]) = frees l.
Proof.
  intros H. unfold frees. rewrite filter_app. cbn [filter].
  rewrite H. apply app_nil_r.
Qed.

Lemma set_language_self (o : CVersionInfo) :
  set_strCodepage (m_strCodepage o) (set_strLanguage (m_strLanguage o) o) = o.
Proof. destruct o; reflexivity. Qed.

Lemma resolve_language_this (r : Run) :
  exists l c,
    this (resolve_language u r) = set_strCodepage c (set_strLanguage l (this r)).
Proof.
  unfold resolve_language, GetCodepageForLanguage, unless_fault.
  destruct (negb (m_wLanguage (this r) =? 0)).
  - cbn [this log]. destruct (VerQueryValue_translation (this r)) as [tbl|].
    + destruct (scan_translation tbl _ _) as [bFound cp].
      cbn [fault log]. destruct (fault r).
      * eexists; eexists; symmetry; apply set_language_self.
      * eexists; eexists; reflexivity.
    + destruct (0 <? _).
      * eexists; eexists; symmetry; apply set_language_self.
      * cbn [fault log]. destruct (fault r).
        -- eexists; eexists; symmetry; apply set_language_self.
        -- eexists; eexists; reflexivity.
  - destruct (Str.empty _ || Str.empty _).
    + cbn [this log]. destruct (VerQueryValue_translation (this r)).
      * eexists; eexists; reflexivity.
      * eexists; eexists; symmetry; apply set_language_self.
    + eexists; eexists; symmetry; apply set_language_self.
Qed.

Lemma resolve_language_frees (r : Run) :
  frees (calls (resolve_language u r)) = frees (calls r).
Proof.
  unfold resolve_language, GetCodepageForLanguage, unless_fault.
  destruct (negb (m_wLanguage (this r) =? 0)).
  - cbn [this log]. destruct (VerQueryValue_translation (this r)) as [tbl|].
    + destruct (scan_translation tbl _ _) as [bFound cp].
      cbn [fault log]. destruct (fault r);
        cbn [calls upd log]; now apply frees_snoc.
    + destruct (0 <? _).
      * cbn [calls crash log]. now apply frees_snoc.
      * cbn [fault log]. destruct (fault r);
          cbn [calls upd log]; now apply frees_snoc.
  - destruct (Str.empty _ || Str.empty _); [|reflexivity].
    cbn [this log]. destruct (VerQueryValue_translation (this r));
      cbn [calls upd log]; now apply frees_snoc.
Qed.

(** The calls that the choice of the texts adds: none, or one
    translation query. *)
Lemma resolve_language_adds (r : Run) :
  calls (resolve_language u r) = calls r \/
  calls (resolve_language u r) =
    (calls r ++ [CallVerQueryValue "\VarFileInfo\Translation"])%list.
Proof.
  unfold resolve_language, GetCodepageForLanguage, unless_fault.
  destruct (negb (m_wLanguage (this r) =? 0)).
  - cbn [this log]. destruct (VerQueryValue_translation (this r)) as [tbl|].
    + destruct (scan_translation tbl _ _) as [bFound cp].
      cbn [fault log]. destruct (fault r); now right.
    + destruct (0 <? _); [now right|].
      cbn [fault log]. destruct (fault r); now right.
  - destruct (Str.empty _ || Str.empty _); [|now left].
    cbn [this log]. destruct (VerQueryValue_translation (this r)); now right.
Qed.

Lemma QueryStrings_this (r : Run) :
  exists l c f,
    this (QueryStrings P u r) =
      with_str f (set_strCodepage c (set_strLanguage l (this r))).
Proof.
  destruct (QueryStrings_cases r) as [[_ ->]|[_ ->]].
  - destruct (query_all_this (resolve_language u r)) as (f & -> & _).
    destruct (resolve_language_this r) as (l & c & ->).
    now exists l, c, f.
  - destruct (resolve_language_this r) as (l & c & ->).
    exists l, c, (m_str (this r)). reflexivity.
Qed.

Lemma frees_queries (l : list OsCall) (sel : string -> string)
    (ks : list (string * StringMember)) :
  frees (l ++ List.map (fun p => CallVerQueryValue (sel (fst p))) ks) = frees l.
Proof.
  unfold frees. rewrite filter_app.
  replace (filter is_free (List.map _ ks)) with (@nil OsCall);
    [apply app_nil_r|].
  induction ks as [|p ks IH]; [reflexivity|exact IH].
Qed.

Lemma QueryStrings_frees (r : Run) :
  frees (calls (QueryStrings P u r)) = frees (calls r).
Proof.
  destruct (QueryStrings_cases r) as [[_ ->]|[_ ->]];
    [|apply resolve_language_frees].
  rewrite query_all_list, query_list_calls.
  rewrite (frees_queries _ (selector (this (resolve_language u r)))).
  apply resolve_language_frees.
Qed.

Lemma GetFixedVersionInfo_frees (r : Run) :
  frees (calls (GetFixedVersionInfo r)) = frees (calls r).
Proof. rewrite GetFixedVersionInfo_calls. now apply frees_snoc. Qed.

Lemma loaded_run_frees (sz : string) (b : VersionBlock) (r : Run) :
  frees (calls (loaded_run P sz b r)) = frees (calls r).
Proof.
  unfold loaded_run. cbn [calls upd log].
  now rewrite !frees_snoc.
Qed.

Lemma read_resource_frees (sz : string) (r : Run) :
  frees (calls (read_resource P u sz r)) = frees (calls r).
Proof.
  destruct (Z.eq_dec (GetFileVersionInfoSize P sz) 0) as [Hs|Hs].
  - rewrite read_resource_absent by assumption. cbn [calls log].
    now apply frees_snoc.
  - destruct (GetFileVersionInfo P sz) as [b|] eqn:Hl.
    + destruct (Z.eq_dec (m_bVersionOnly (this r)) FALSE) as [Hv|Hv].
      * rewrite (read_resource_full sz b) by assumption.
        now rewrite QueryStrings_frees, GetFixedVersionInfo_frees,
          loaded_run_frees.
      * rewrite (read_resource_version_only sz b) by assumption.
        now rewrite GetFixedVersionInfo_frees, loaded_run_frees.
    + rewrite read_resource_load_failed by assumption.
      cbn [calls upd log]. now rewrite !frees_snoc.
Qed.

(** The resource stage leaves the constructor's choices alone. *)
Lemma read_resource_flags (sz : string) (r : Run) :
  m_bDllVersion (this (read_resource P u sz r)) = m_bDllVersion (this r) /\
  m_bVersionOnly (this (read_resource P u sz r)) = m_bVersionOnly (this r) /\
  m_wLanguage (this (read_resource P u sz r)) = m_wLanguage (this r).
Proof.
  destruct (Z.eq_dec (GetFileVersionInfoSize P sz) 0) as [Hs|Hs].
  - rewrite read_resource_absent by assumption. now cbn.
  - destruct (GetFileVersionInfo P sz) as [b|] eqn:Hl.
    + destruct (Z.eq_dec (m_bVersionOnly (this r)) FALSE) as [Hv|Hv].
      * rewrite (read_resource_full sz b) by assumption.
        destruct (QueryStrings_this (GetFixedVersionInfo (loaded_run P sz b r)))
          as (l & c & f & ->).
        rewrite GetFixedVersionInfo_this. now cbn.
      * rewrite (read_resource_version_only sz b) by assumption.
        rewrite GetFixedVersionInfo_this. now cbn.
    + rewrite read_resource_load_failed by assumption. now cbn.
Qed.

(** After the resource stage [m_dvi] is what the stored fixed info
    dictates. *)
Lemma read_resource_dvi (sz : string) (r : Run) :
  m_FixedFileInfo (this r) = zero_ffi ->
  m_dvi (this r) = zero_dvi ->
  m_dvi (this (read_resource P u sz r)) =
  dvi_of_fixed (m_FixedFileInfo (this (read_resource P u sz r))) zero_dvi.
Proof.
  intros Hf Hd.
  destruct (Z.eq_dec (GetFileVersionInfoSize P sz) 0) as [Hs|Hs].
  - rewrite read_resource_absent by assumption. cbn [this log].
    now rewrite Hf, Hd.
  - destruct (GetFileVersionInfo P sz) as [b|] eqn:Hl.
    + destruct (Z.eq_dec (m_bVersionOnly (this r)) FALSE) as [Hv|Hv].
      * rewrite (read_resource_full sz b) by assumption.
        destruct (QueryStrings_this (GetFixedVersionInfo (loaded_run P sz b r)))
          as (l & c & f & ->).
        rewrite GetFixedVersionInfo_this. cbn. now rewrite Hd.
      * rewrite (read_resource_version_only sz b) by assumption.
        rewrite GetFixedVersionInfo_this. cbn. now rewrite Hd.
    + rewrite read_resource_load_failed by assumption. cbn [this log upd].
      cbn. now rewrite Hf, Hd.
Qed.

(** *** Entry and constructors *)

Lemma enter_this (r : Run) :
  this (enter r) = set_dvi zero_dvi (set_FixedFileInfo zero_ffi (this r)).
Proof.
  unfold enter. cbn [this upd].
  now destruct (Str.empty _).
Qed.

Lemma enter_frees (r : Run) : frees (calls (enter r)) = frees (calls r).
Proof.
  unfold enter. cbn [this upd].
  destruct (Str.empty _); [|reflexivity].
  cbn [calls upd log]. now apply frees_snoc.
Qed.

Lemma prepare_frees (c : Construction) : frees (calls (prepare P u c)) = [].
Proof. destruct c; reflexivity. Qed.

Lemma prepare_str (c : Construction) (k : StringMember) :
  m_str (this (prepare P u c)) k = "".
Proof.
  destruct c as [b|w|f b|f l cp|h]; try reflexivity.
  - destruct f; reflexivity.
  - destruct f, l, cp; reflexivity.
Qed.

Lemma prepare_found (c : Construction) :
  m_bVersionFound (this (prepare P u c)) = u_bVersionFound u.
Proof.
  destruct c as [b|w|f b|f l cp|h]; try reflexivity.
  - destruct f; reflexivity.
  - destruct f, l, cp; reflexivity.
Qed.

(** The record that results from a construction, up to the DLL stage
    (which only writes [m_dvi]). *)
Lemma construct_this (c : Construction) :
  exists d,
    this (construct P u c) =
    set_dvi d (this (read_resource P u (target P u c)
                       (enter (prepare P u c)))).
Proof.
  rewrite construct_prepare.
  destruct (GetVersionInfo_cases (prepare P u c)) as [[_ ->]|[_ ->]].
  - apply read_dll_this.
  - eexists. symmetry. apply set_dvi_self.
Qed.

(** *** Where a run can fault *)

Lemma GetFixedVersionInfo_fault (r : Run) :
  fault (GetFixedVersionInfo r) = fault r.
Proof.
  unfold GetFixedVersionInfo. cbn [this log].
  now destruct (VerQueryValue_root (this r)).
Qed.

Lemma loaded_run_fault (sz : string) (b : VersionBlock) (r : Run) :
  fault (loaded_run P sz b r) = fault r.
Proof. reflexivity. Qed.

Lemma enter_fault (r : Run) : fault (enter r) = fault r.
Proof. unfold enter. cbn [this upd]. now destruct (Str.empty _). Qed.

Lemma prepare_fault (c : Construction) : fault (prepare P u c) = false.
Proof. destruct c; reflexivity. Qed.

Lemma call_DllGetVersion_fault (h : HINSTANCE) (r : Run) :
  fault (call_DllGetVersion P h r) = fault r.
Proof.
  unfold call_DllGetVersion.
  destruct (GetProcAddress_DllGetVersion P h) as [proc|]; [|reflexivity].
  cbn [this upd log]. destruct (proc _) as [hr dvi].
  now destruct (FAILED hr).
Qed.

Lemma read_dll_fault (sz : string) (r : Run) :
  fault (read_dll P sz r) = fault r.
Proof.
  unfold read_dll.
  destruct (truthy (m_bDllVersion (this r))); [|reflexivity].
  destruct (negb (LoadLibrary P sz =? NULL)); [|reflexivity].
  cbn [fault log]. now rewrite call_DllGetVersion_fault.
Qed.

Lemma QueryStrings_fault (r : Run) :
  fault (QueryStrings P u r) = fault (resolve_language u r).
Proof.
  destruct (QueryStrings_cases r) as [[_ ->]|[_ ->]]; [|reflexivity].
  apply query_all_fault.
Qed.

(** The language-ID branch on a block without translation value is the
    only place where a run faults. *)
Lemma resolve_language_faults (r : Run) :
  fault r = false ->
  fault (resolve_language u r) = true ->
  m_wLanguage (this r) <> 0 /\ VerQueryValue_translation (this r) = None.
Proof.
  intros H0 H. split.
  - intros Hz. rewrite (resolve_language_fault_zero r Hz) in H. congruence.
  - destruct (VerQueryValue_translation (this r)) eqn:Ht; [|reflexivity].
    rewrite resolve_language_fault_table in H by congruence. congruence.
Qed.

Lemma read_resource_faults (sz : string) (r : Run) :
  fault r = false ->
  fault (read_resource P u sz r) = true ->
  m_wLanguage (this r) <> 0 /\ m_bVersionOnly (this r) = FALSE /\
  exists b, GetFileVersionInfoSize P sz <> 0 /\
            GetFileVersionInfo P sz = Some b /\ vq_translation b = None.
Proof.
  intros H0 H.
  destruct (Z.eq_dec (GetFileVersionInfoSize P sz) 0) as [Hs|Hs].
  - rewrite read_resource_absent in H by assumption.
    cbn [fault log] in H. congruence.
  - destruct (GetFileVersionInfo P sz) as [b|] eqn:Hl.
    + destruct (Z.eq_dec (m_bVersionOnly (this r)) FALSE) as [Hv|Hv].
      * rewrite (read_resource_full sz b) in H by assumption.
        rewrite QueryStrings_fault in H.
        apply resolve_language_faults in H;
          [|now rewrite GetFixedVersionInfo_fault].
        rewrite GetFixedVersionInfo_this in H. destruct H as [Hw Ht].
        split; [exact Hw|]. split; [exact Hv|].
        exists b. repeat split; assumption.
      * rewrite (read_resource_version_only sz b) in H by assumption.
        rewrite GetFixedVersionInfo_fault in H. cbn in H. congruence.
    + rewrite read_resource_load_failed in H by assumption.
      cbn in H. congruence.
Qed.

Lemma read_resource_no_fault (sz : string) (r : Run) :
  fault r = false ->
  m_wLanguage (this r) = 0 \/
  (forall b, GetFileVersionInfo P sz = Some b -> vq_translation b <> None) ->
  fault (read_resource P u sz r) = false.
Proof.
  intros H0 H.
  destruct (fault (read_resource P u sz r)) eqn:E; [|reflexivity].
  destruct (read_resource_faults sz r H0 E) as (Hw & _ & b & _ & Hl & Ht).
  destruct H as [H|H]; [contradiction|]. now destruct (H b Hl).
Qed.

(** Only the constructor that takes a language ID sets [m_wLanguage], and
    it asks for all strings and for no DLL version. *)
Lemma prepare_language (c : Construction) :
  m_wLanguage (this (prepare P u c)) <> 0 ->
  m_bDllVersion (this (prepare P u c)) = FALSE /\
  m_bVersionOnly (this (prepare P u c)) = FALSE.
Proof.
  destruct c as [b|w|f b|f l cp|h]; cbn; try congruence.
  - now split.
  - destruct f; cbn; congruence.
  - destruct f, l, cp; cbn; congruence.
Qed.

(** A construction that faults has reached the language-ID branch on a
    loaded block that holds no translation value. *)
Lemma construct_faults (c : Construction) :
  fault (read_resource P u (target P u c) (enter (prepare P u c))) = true ->
  m_wLanguage (this (prepare P u c)) <> 0 /\
  m_bDllVersion (this (prepare P u c)) = FALSE /\
  exists b, GetFileVersionInfoSize P (target P u c) <> 0 /\
            GetFileVersionInfo P (target P u c) = Some b /\
            vq_translation b = None.
Proof.
  intros H. apply read_resource_faults in H;
    [|now rewrite enter_fault, prepare_fault].
  destruct H as (Hw & _ & b & Hs & Hl & Ht).
  rewrite enter_this in Hw. cbn in Hw.
  split; [exact Hw|]. split; [now apply prepare_language|].
  now exists b.
Qed.

Lemma construct_fault (c : Construction) :
  fault (construct P u c) =
  fault (read_resource P u (target P u c) (enter (prepare P u c))).
Proof.
  rewrite construct_prepare.
  destruct (GetVersionInfo_cases (prepare P u c)) as [[_ ->]|[_ ->]];
    [apply read_dll_fault|reflexivity].
Qed.

Lemma construct_no_fault (c : Construction) :
  m_wLanguage (this (prepare P u c)) = 0 \/
  (forall b, GetFileVersionInfo P (target P u c) = Some b ->
             vq_translation b <> None) ->
  fault (read_resource P u (target P u c) (enter (prepare P u c))) = false.
Proof.
  intros H. apply read_resource_no_fault.
  - now rewrite enter_fault, prepare_fault.
  - rewrite enter_this. exact H.
Qed.

Lemma construct_stages (c : Construction) :
  m_wLanguage (this (prepare P u c)) = 0 \/
  (forall b, GetFileVersionInfo P (target P u c) = Some b ->
             vq_translation b <> None) ->
  construct P u c =
    read_dll P (target P u c)
      (read_resource P u (target P u c) (enter (prepare P u c))).
Proof.
  intros H. rewrite construct_prepare.
  apply GetVersionInfo_stages. now apply construct_no_fault.
Qed.

End Facts.

End VersionFacts.

(** ** Claims *)

Module VersionString.
Import Version.

Lemma MakeVersionString_untruncated (hi lo : DWORD) :
  MakeVersionString hi lo =
  spec_version_string (HIWORD hi) (LOWORD hi) (HIWORD lo) (LOWORD lo).
Proof.
  unfold MakeVersionString, spec_version_string.
  pose proof (PrintfFacts.fmt_d_word_length _ (WordFacts.HIWORD_range hi)).
  pose proof (PrintfFacts.fmt_d_word_length _ (WordFacts.LOWORD_range hi)).
  pose proof (PrintfFacts.fmt_d_word_length _ (WordFacts.HIWORD_range lo)).
  pose proof (PrintfFacts.fmt_d_word_length _ (WordFacts.LOWORD_range lo)).
  destruct (LOWORD lo =? 0); apply PrintfFacts.StringCch_fits;
    rewrite ?StrFacts.length_app; change (String.length ".") with 1%nat; lia.
Qed.

(** C1. For all 32-bit [hi] and [lo], [MakeVersionString hi lo] is the
    decimal text of the high and low 16 bits of [hi] and of the high 16
    bits of [lo], joined by dots, followed by a dot and the low 16 bits of
    [lo] exactly when those are not zero; the halves of 1.2.3.0 give
    ["1.2.3"] and those of 1.2.3.4 give ["1.2.3.4"]. *)
Theorem MakeVersionString_format (hi lo : DWORD) :
  0 <= hi < 2 ^ 32 -> 0 <= lo < 2 ^ 32 ->
  MakeVersionString hi lo =
    (if lo mod 65536 =? 0
     then Printf.fmt_d (hi / 65536) ++ "." ++ Printf.fmt_d (hi mod 65536) ++
          "." ++ Printf.fmt_d (lo / 65536)
     else Printf.fmt_d (hi / 65536) ++ "." ++ Printf.fmt_d (hi mod 65536) ++
          "." ++ Printf.fmt_d (lo / 65536) ++ "." ++
          Printf.fmt_d (lo mod 65536))
  /\ MakeVersionString (1 * 65536 + 2) (3 * 65536 + 0) = "1.2.3"
  /\ MakeVersionString (1 * 65536 + 2) (3 * 65536 + 4) = "1.2.3.4".
Proof.
  intros Hhi Hlo. split; [|split; vm_compute; reflexivity].
  rewrite MakeVersionString_untruncated. unfold spec_version_string.
  change (2 ^ 32) with 4294967296 in *.
  now rewrite !WordFacts.LOWORD_mod, !WordFacts.HIWORD_div by assumption.
Qed.

Lemma MakeVersionString_format_witness :
  0 <= 393221 < 2 ^ 32 /\ 0 <= 458752 < 2 ^ 32 /\
  MakeVersionString 393221 458752 = "6.5.7".
Proof.
  split; [lia|split; [lia|]].
  apply (MakeVersionString_format 393221 458752); lia.
Defined.

End VersionString.



Module Accessors.
Import Version VersionFacts.

Lemma MakeVersionString_zero : MakeVersionString 0 0 = "0.0.0".
Proof. vm_compute. reflexivity. Qed.

Lemma getters_empty (o : CVersionInfo) :
  (forall k, m_str o k = "") -> forall g, In g string_getters -> g o = "".
Proof.
  intros H g Hg. unfold string_getters in Hg. cbn [In] in Hg.
  repeat (destruct Hg as [<-|Hg]; [apply H|]). destruct Hg.
Qed.

(** C10. On any record, the two-out-parameter [GetFixedFileVersion]
    returns [TRUE] and puts the stored [dwFileVersionMS] and
    [dwFileVersionLS] in the two variables when the found flag is set; when
    the flag is unset it returns [FALSE] and both variables keep the values
    they had. *)
Theorem GetFixedFileVersion_out_frame (o : CVersionInfo)
    (versionMS versionLS : DWORD) :
  (m_bVersionFound o <> FALSE ->
   GetFixedFileVersion_out o versionMS versionLS =
     (TRUE, dwFileVersionMS (m_FixedFileInfo o),
            dwFileVersionLS (m_FixedFileInfo o))) /\
  (m_bVersionFound o = FALSE ->
   GetFixedFileVersion_out o versionMS versionLS =
     (FALSE, versionMS, versionLS)).
Proof.
  unfold GetFixedFileVersion_out, truthy. split; intros H.
  - apply Z.eqb_neq in H. unfold FALSE in H. now rewrite H.
  - now rewrite H.
Qed.

Lemma GetFixedFileVersion_out_frame_witness :
  let found := this (construct Sample.os Sample.clean
                       (ByFileDll (Some "app.exe") FALSE)) in
  let absent := this (construct Sample.os Sample.clean
                        (ByFileDll (Some "plain.txt") FALSE)) in
  (m_bVersionFound found <> FALSE /\
   GetFixedFileVersion_out found 7 9 = (TRUE, 65538, 196612)) /\
  (m_bVersionFound absent = FALSE /\
   GetFixedFileVersion_out absent 7 9 = (FALSE, 7, 9)).
Proof.
  intros found absent.
  assert (Hf : m_bVersionFound found <> FALSE) by (vm_compute; discriminate).
  assert (Ha : m_bVersionFound absent = FALSE) by reflexivity.
  split; split; try assumption.
  - exact (proj1 (GetFixedFileVersion_out_frame found 7 9) Hf).
  - exact (proj2 (GetFixedFileVersion_out_frame absent 7 9) Ha).
Defined.

End Accessors.

Module Absence.
Import Version VersionFacts Accessors.

(** Without a version resource the constructor leaves the found flag as
    it was, the fixed info zeroed and every string member empty. *)
Lemma absent_resource (P : Platform) (u : Uninit) (c : Construction) :
  GetFileVersionInfoSize P (target P u c) = 0 ->
  let o := this (construct P u c) in
  m_bVersionFound o = u_bVersionFound u /\
  m_FixedFileInfo o = zero_ffi /\
  forall g, In g string_getters -> g o = "".
Proof.
  intros Hs o. subst o.
  destruct (construct_this P u c) as [d ->].
  rewrite read_resource_absent by assumption.
  cbn [this log]. rewrite enter_this.
  cbn [m_bVersionFound m_FixedFileInfo set_dvi set_FixedFileInfo].
  split; [apply prepare_found|]. split; [reflexivity|].
  apply getters_empty. intros k. cbn [m_str]. apply prepare_str.
Qed.

(** When the flag's storage holds zero to begin with, an absent resource
    makes every accessor report nothing. *)
Lemma absent_resource_from_zero (P : Platform) (u : Uninit)
    (c : Construction) :
  u_bVersionFound u = FALSE ->
  GetFileVersionInfoSize P (target P u c) = 0 ->
  let o := this (construct P u c) in
  m_bVersionFound o = FALSE /\
  (forall g, In g string_getters -> g o = "") /\
  GetFixedFileVersion o = "" /\ GetFixedProductVersion o = "" /\
  forall ms ls, GetFixedFileVersion_out o ms ls = (FALSE, ms, ls).
Proof.
  intros Hu Hs o.
  destruct (absent_resource P u c Hs) as (Hf & _ & Hg). fold o in Hf, Hg.
  rewrite Hu in Hf.
  unfold GetFixedFileVersion, GetFixedProductVersion, GetFixedFileVersion_out.
  rewrite Hf. repeat split; auto.
Qed.

(** C3. A file without a version resource, opened by a record whose
    [m_bVersionFound] storage holds a nonzero value: the size query
    returns zero, nothing writes the flag, and the fixed-version accessors
    answer as if a version 0.0.0 had been found. *)
Theorem absent_resource_flag_unwritten :
  let P := Sample.os in
  let c := ByFileDll (Some "plain.txt") FALSE in
  let o := this (construct P Sample.stale c) in
  GetFileVersionInfoSize P (target P Sample.stale c) = 0 /\
  m_bVersionFound o = TRUE /\
  GetFixedFileVersion o = "0.0.0" /\
  GetFixedProductVersion o = "0.0.0" /\
  GetFixedFileVersion_out o 7 9 = (TRUE, 0, 0).
Proof. vm_compute. repeat split; reflexivity. Qed.

End Absence.

Module LoadFailure.
Import Version VersionFacts Accessors.

(** C2 (as stated) fails: "broken.exe" reports a size and then fails to
    load, and its fixed-version accessors do not answer as those of a file
    without a resource do. *)
Lemma load_failure_not_absent :
  let P := Sample.os in
  let u := Sample.clean in
  let broken := ByFileDll (Some "broken.exe") FALSE in
  let plain := ByFileDll (Some "plain.txt") FALSE in
  GetFileVersionInfoSize P (target P u broken) <> 0 /\
  GetFileVersionInfo P (target P u broken) = None /\
  GetFileVersionInfoSize P (target P u plain) = 0 /\
  GetFixedFileVersion (this (construct P u plain)) = "" /\
  GetFixedFileVersion (this (construct P u broken)) <> "" /\
  GetFixedFileVersion_out (this (construct P u broken)) 7 9 <> (FALSE, 7, 9).
Proof. vm_compute. repeat split; try reflexivity; discriminate. Qed.

(** C2 (amended). When the size query returns a nonzero size and the load
    call fails, the eleven string accessors return the empty string, the
    found flag is [TRUE], the fixed-version accessors return ["0.0.0"] and
    the two-out-parameter accessor returns [TRUE] with both versions
    zero. *)
Theorem load_failure_accessors (P : Platform) (u : Uninit)
    (c : Construction) :
  GetFileVersionInfoSize P (target P u c) <> 0 ->
  GetFileVersionInfo P (target P u c) = None ->
  let o := this (construct P u c) in
  (forall g, In g string_getters -> g o = "") /\
  m_bVersionFound o = TRUE /\
  GetFixedFileVersion o = "0.0.0" /\
  GetFixedProductVersion o = "0.0.0" /\
  forall ms ls, GetFixedFileVersion_out o ms ls = (TRUE, 0, 0).
Proof.
  intros Hs Hl o. subst o.
  destruct (construct_this P u c) as [d ->].
  rewrite read_resource_load_failed by assumption.
  cbn [this log upd]. rewrite enter_this.
  unfold GetFixedFileVersion, GetFixedProductVersion, GetFixedFileVersion_out.
  cbn [m_bVersionFound m_FixedFileInfo set_dvi set_FixedFileInfo
       set_pVffInfo set_bVersionFound].
  split.
  { apply getters_empty. intros k. cbn [m_str]. apply prepare_str. }
  split; [reflexivity|].
  cbn [truthy TRUE Z.eqb negb zero_ffi dwFileVersionMS dwFileVersionLS
       dwProductVersionMS dwProductVersionLS].
  rewrite MakeVersionString_zero. repeat split.
Qed.

Lemma load_failure_accessors_witness :
  let P := Sample.os in
  let c := ByFileDll (Some "broken.exe") FALSE in
  let o := this (construct P Sample.clean c) in
  GetFileVersionInfoSize P (target P Sample.clean c) <> 0 /\
  GetFileVersionInfo P (target P Sample.clean c) = None /\
  GetCompanyName o = "" /\
  GetFixedFileVersion o = "0.0.0".
Proof.
  intros P c o.
  assert (Hs : GetFileVersionInfoSize P (target P Sample.clean c) <> 0)
    by (vm_compute; discriminate).
  assert (Hl : GetFileVersionInfo P (target P Sample.clean c) = None)
    by reflexivity.
  destruct (load_failure_accessors P Sample.clean c Hs Hl)
    as (Hg & _ & Hf & _).
  split; [exact Hs|]. split; [exact Hl|]. split; [|exact Hf].
  apply Hg. unfold string_getters. cbn [In]. now left.
Defined.

End LoadFailure.

Module VersionOnly.
Import Version VersionFacts Accessors.

Section VersionOnly.

Variable P : Platform.
Variable u : Uninit.
Variable bVersionOnly : BOOL.
Hypothesis requested : bVersionOnly <> FALSE.

Let c := ByVersionOnly bVersionOnly.
Let sz := GetModuleFileName P NULL.

Lemma version_only_target : target P u c = sz.
Proof. reflexivity. Qed.

Lemma version_only_no_dll (r : Run) :
  m_bDllVersion (this r) = FALSE -> read_dll P sz r = r.
Proof. intros H. unfold read_dll. now rewrite H. Qed.

Lemma version_only_run :
  construct P u c = read_resource P u sz (enter (prepare P u c)).
Proof.
  rewrite construct_stages by now left.
  change (target P u c) with sz.
  apply version_only_no_dll.
  destruct (read_resource_flags P u sz (enter (prepare P u c))) as (-> & _).
  now rewrite enter_this.
Qed.

Lemma version_only_strings :
  forall g, In g string_getters -> g (this (construct P u c)) = "".
Proof.
  rewrite version_only_run.
  assert (Hv : m_bVersionOnly (this (enter (prepare P u c))) <> FALSE)
    by (rewrite enter_this; exact requested).
  apply getters_empty. intros k.
  destruct (Z.eq_dec (GetFileVersionInfoSize P sz) 0) as [Hs|Hs].
  - rewrite read_resource_absent by assumption.
    cbn [this log]. now rewrite enter_this.
  - destruct (GetFileVersionInfo P sz) as [b|] eqn:Hl.
    + rewrite (read_resource_version_only P u sz b) by assumption.
      rewrite GetFixedVersionInfo_this. unfold loaded_run.
      cbn [this log upd m_str set_dvi set_FixedFileInfo set_pVffInfo
           set_bVersionFound].
      now rewrite enter_this.
    + rewrite read_resource_load_failed by assumption.
      cbn [this log upd m_str set_pVffInfo set_bVersionFound].
      now rewrite enter_this.
Qed.

Lemma version_only_queries (sel : string) :
  In (CallVerQueryValue sel) (calls (construct P u c)) -> sel = "\".
Proof.
  rewrite version_only_run.
  assert (Hv : m_bVersionOnly (this (enter (prepare P u c))) <> FALSE)
    by (rewrite enter_this; exact requested).
  assert (He : calls (enter (prepare P u c)) = [CallGetModuleFileName NULL])
    by reflexivity.
  destruct (Z.eq_dec (GetFileVersionInfoSize P sz) 0) as [Hs|Hs].
  - rewrite read_resource_absent by assumption.
    cbn [calls log]. rewrite He. cbn [app In].
    intros [H|[H|[]]]; discriminate H.
  - destruct (GetFileVersionInfo P sz) as [b|] eqn:Hl.
    + rewrite (read_resource_version_only P u sz b) by assumption.
      rewrite GetFixedVersionInfo_calls. unfold loaded_run.
      cbn [calls log upd]. rewrite He. cbn [app In].
      intros [H|[H|[H|[H|[]]]]]; try discriminate H.
      now inversion H.
    + rewrite read_resource_load_failed by assumption.
      cbn [calls log upd]. rewrite He. cbn [app In].
      intros [H|[H|[H|[]]]]; discriminate H.
Qed.

Lemma version_only_fixed (b : VersionBlock) (ffi : VS_FIXEDFILEINFO) :
  GetFileVersionInfoSize P sz <> 0 ->
  GetFileVersionInfo P sz = Some b ->
  vq_root b = Some ffi ->
  m_bVersionFound (this (construct P u c)) = TRUE /\
  m_FixedFileInfo (this (construct P u c)) = ffi.
Proof.
  intros Hs Hl Hr. rewrite version_only_run.
  assert (Hv : m_bVersionOnly (this (enter (prepare P u c))) <> FALSE)
    by (rewrite enter_this; exact requested).
  rewrite (read_resource_version_only P u sz b) by assumption.
  rewrite GetFixedVersionInfo_this.
  unfold VerQueryValue_root, block, loaded_run.
  cbn [this log upd m_pVffInfo m_bVersionFound m_FixedFileInfo set_dvi
       set_FixedFileInfo set_pVffInfo set_bVersionFound].
  now rewrite Hr.
Qed.

End VersionOnly.

(** C6. A record built with the version-only flag set: the eleven string
    accessors return the empty string whatever the resource holds, the only
    [VerQueryValue] call that may be made is the root query, and when the
    resource is found and loaded with fixed info [ffi] the fixed-version
    accessors return the versions of [ffi]. *)
Theorem version_only_reads_numbers_only (P : Platform) (u : Uninit)
    (bVersionOnly : BOOL) :
  bVersionOnly <> FALSE ->
  let r := construct P u (ByVersionOnly bVersionOnly) in
  let sz := GetModuleFileName P NULL in
  (forall g, In g string_getters -> g (this r) = "") /\
  (forall sel, In (CallVerQueryValue sel) (calls r) -> sel = "\") /\
  (forall b ffi,
     GetFileVersionInfoSize P sz <> 0 ->
     GetFileVersionInfo P sz = Some b ->
     vq_root b = Some ffi ->
     GetFixedFileVersion (this r) =
       MakeVersionString (dwFileVersionMS ffi) (dwFileVersionLS ffi) /\
     GetFixedProductVersion (this r) =
       MakeVersionString (dwProductVersionMS ffi) (dwProductVersionLS ffi) /\
     forall ms ls,
       GetFixedFileVersion_out (this r) ms ls =
         (TRUE, dwFileVersionMS ffi, dwFileVersionLS ffi)).
Proof.
  intros Hb r sz. subst r sz. split; [|split].
  - now apply version_only_strings.
  - intros sel. now apply version_only_queries.
  - intros b ffi Hs Hl Hr.
    destruct (version_only_fixed P u bVersionOnly Hb b ffi Hs Hl Hr)
      as [Hfound Hffi].
    unfold GetFixedFileVersion, GetFixedProductVersion,
      GetFixedFileVersion_out.
    rewrite Hfound, Hffi. repeat split.
Qed.

Lemma version_only_reads_numbers_only_witness :
  let r := construct Sample.os Sample.clean (ByVersionOnly TRUE) in
  TRUE <> FALSE /\
  vq_string Sample.app_block "\StringFileInfo\040904B0\CompanyName"
    = Some " Acme Corp " /\
  GetCompanyName (this r) = "" /\
  ~ In (CallVerQueryValue "\StringFileInfo\040904B0\CompanyName") (calls r) /\
  GetFixedFileVersion (this r) = "1.2.3.4" /\
  GetFixedProductVersion (this r) = "2.14.0".
Proof.
  intros r.
  assert (Hb : TRUE <> FALSE) by discriminate.
  destruct (version_only_reads_numbers_only Sample.os Sample.clean TRUE Hb)
    as (Hg & Hq & Hf).
  assert (Hs : GetFileVersionInfoSize Sample.os
                 (GetModuleFileName Sample.os NULL) <> 0)
    by (vm_compute; discriminate).
  destruct (Hf Sample.app_block (Sample.ffi 65538 196612 131086 0) Hs
              eq_refl eq_refl) as (Hfile & Hprod & _).
  split; [exact Hb|]. split; [reflexivity|]. split.
  { apply Hg. unfold string_getters. cbn [In]. now left. }
  split.
  { intros Hin. apply Hq in Hin. discriminate Hin. }
  split; [exact Hfile|exact Hprod].
Defined.

End VersionOnly.

Module DllVersion.
Import Version VersionFacts Accessors.

(** C7 (as stated) fails: "app.exe" loads as a module and exports no
    [DllGetVersion], yet the version-info structure of the record is not
    zero-valued: it carries the file version 1.2.3 of the resource. *)
Lemma dll_info_not_zero :
  let P := Sample.os in
  let c := ByFileDll (Some "app.exe") TRUE in
  let r := construct P Sample.clean c in
  LoadLibrary P (target P Sample.clean c) <> NULL /\
  GetProcAddress_DllGetVersion P (LoadLibrary P (target P Sample.clean c))
    = None /\
  m_dvi (this r) <> zero_dvi /\
  dwMajorVersion (m_dvi (this r)) = 1.
Proof. vm_compute. repeat split; try reflexivity; discriminate. Qed.

(** C7 (amended). For a DLL-version query on a module that loads: the
    handle returned by [LoadLibrary] is released by exactly one
    [FreeLibrary] call, whatever the symbol lookup and the version call
    do; when the module lacks [DllGetVersion], the structure has [cbSize]
    and [dwPlatformID] zero and its major, minor and build numbers are
    the words of the stored fixed file version, so it is zero-valued
    exactly when those three words are zero, as they are when no fixed
    info was read. *)
Theorem dll_query_releases_module (P : Platform) (u : Uninit)
    (szFileToVersion : option string) (bDllVersion : BOOL) :
  let c := ByFileDll szFileToVersion bDllVersion in
  let hinstDll := LoadLibrary P (target P u c) in
  let r := construct P u c in
  bDllVersion <> FALSE ->
  hinstDll <> NULL ->
  frees (calls r) = [CallFreeLibrary hinstDll] /\
  (GetProcAddress_DllGetVersion P hinstDll = None ->
   m_dvi (this r) =
     {| cbSize := 0;
        dwMajorVersion := HIWORD (dwFileVersionMS (m_FixedFileInfo (this r)));
        dwMinorVersion := LOWORD (dwFileVersionMS (m_FixedFileInfo (this r)));
        dwBuildNumber := HIWORD (dwFileVersionLS (m_FixedFileInfo (this r)));
        dwPlatformID := 0 |} /\
   (m_FixedFileInfo (this r) = zero_ffi -> m_dvi (this r) = zero_dvi) /\
   (m_dvi (this r) = zero_dvi <->
    HIWORD (dwFileVersionMS (m_FixedFileInfo (this r))) = 0 /\
    LOWORD (dwFileVersionMS (m_FixedFileInfo (this r))) = 0 /\
    HIWORD (dwFileVersionLS (m_FixedFileInfo (this r))) = 0)).
Proof.
  intros c hinstDll r Hb Hh. subst r.
  rewrite construct_stages by (left; subst c; now destruct szFileToVersion).
  fold hinstDll in Hh |- *.
  set (r1 := read_resource P u (target P u c) (enter (prepare P u c))).
  assert (Hdll : m_bDllVersion (this r1) = bDllVersion).
  { subst r1.
    destruct (read_resource_flags P u (target P u c) (enter (prepare P u c)))
      as (-> & _).
    rewrite enter_this. subst c. now destruct szFileToVersion. }
  assert (Hdvi : m_dvi (this r1) =
                 dvi_of_fixed (m_FixedFileInfo (this r1)) zero_dvi).
  { subst r1. apply read_resource_dvi; now rewrite enter_this. }
  split.
  - rewrite read_dll_frees. fold hinstDll. fold r1.
    rewrite Hdll. unfold truthy.
    apply Z.eqb_neq in Hb, Hh. unfold FALSE in Hb. rewrite Hb, Hh.
    cbn [negb andb]. subst r1.
    now rewrite read_resource_frees, enter_frees, prepare_frees.
  - intros Hp. fold r1.
    rewrite read_dll_no_symbol; try assumption; [|now rewrite Hdll].
    cbn [this log]. split; [exact Hdvi|]. split.
    + intros Hz. rewrite Hdvi, Hz. reflexivity.
    + rewrite Hdvi. unfold dvi_of_fixed, zero_dvi. cbn [cbSize dwPlatformID].
      split.
      * intros H. now inversion H.
      * intros (-> & -> & ->). reflexivity.
Qed.

Lemma dll_query_releases_module_witness :
  let P := Sample.os in
  let c := ByFileDll (Some "app.exe") TRUE in
  let r := construct P Sample.clean c in
  TRUE <> FALSE /\
  LoadLibrary P (target P Sample.clean c) <> NULL /\
  frees (calls r) = [CallFreeLibrary 4194304] /\
  dwBuildNumber (m_dvi (this r)) = 3.
Proof.
  intros P c r.
  assert (Hb : TRUE <> FALSE) by discriminate.
  assert (Hh : LoadLibrary P (target P Sample.clean c) <> NULL)
    by (vm_compute; discriminate).
  destruct (dll_query_releases_module P Sample.clean (Some "app.exe") TRUE
              Hb Hh) as (Hfree & Hdvi).
  destruct (Hdvi eq_refl) as (Hd & _).
  split; [exact Hb|]. split; [exact Hh|]. split; [exact Hfree|].
  fold P c r in Hd. rewrite Hd. reflexivity.
Defined.

End DllVersion.

Module Language.
Import Version VersionFacts Accessors.

Lemma getter_member (k : StringMember) (o : CVersionInfo) :
  getter k o = m_str o k.
Proof. destruct k; reflexivity. Qed.

Lemma szId_length (k : StringMember) : (String.length (szId_of k) <= 16)%nat.
Proof. destruct k; cbn; lia. Qed.

(** With four-character language and codepage texts the selector fits its
    256-element buffer. *)
Lemma selector_fits (o : CVersionInfo) (k : StringMember) :
  String.length (m_strLanguage o) = 4%nat ->
  String.length (m_strCodepage o) = 4%nat ->
  selector o (szId_of k) =
    "\StringFileInfo\" ++ m_strLanguage o ++ m_strCodepage o ++ "\" ++
    szId_of k.
Proof.
  intros Hl Hc. unfold selector. apply PrintfFacts.StringCch_fits.
  rewrite !StrFacts.length_app, Hl, Hc.
  pose proof (szId_length k).
  change (String.length "\StringFileInfo\") with 16%nat.
  change (String.length "\") with 1%nat. lia.
Qed.

Lemma temp_fits (s : string) :
  String.length s = 4%nat -> Printf.StringCch (20 - 1) s = s.
Proof. intros H. apply PrintfFacts.StringCch_fits. rewrite H. lia. Qed.

Section Loaded.

Variable P : Platform.
Variable u : Uninit.
Variable c : Construction.
Variable blk : VersionBlock.

Let o0 := this (prepare P u c).
Let sz := target P u c.

Hypothesis full : m_bVersionOnly o0 = FALSE.
Hypothesis found : GetFileVersionInfoSize P sz <> 0.
Hypothesis loaded : GetFileVersionInfo P sz = Some blk.

(** The run on which [QueryStrings] starts. *)
Let r2 := GetFixedVersionInfo (loaded_run P sz blk (enter (prepare P u c))).

Lemma r2_fault : fault r2 = false.
Proof.
  unfold r2.
  now rewrite GetFixedVersionInfo_fault, loaded_run_fault, enter_fault,
    prepare_fault.
Qed.

Lemma loaded_no_fault :
  m_wLanguage o0 = 0 \/ vq_translation blk <> None ->
  fault (resolve_language u r2) = false.
Proof.
  intros [Hw|Ht].
  - rewrite resolve_language_fault_zero; [apply r2_fault|].
    unfold r2. rewrite GetFixedVersionInfo_this. unfold loaded_run.
    cbn [this log upd m_wLanguage set_dvi set_FixedFileInfo set_pVffInfo
         set_bVersionFound].
    now rewrite enter_this.
  - rewrite resolve_language_fault_table; [apply r2_fault|].
    unfold r2. rewrite GetFixedVersionInfo_this. unfold loaded_run.
    exact Ht.
Qed.

Lemma loaded_construct :
  m_wLanguage o0 = 0 \/ vq_translation blk <> None ->
  exists d f,
    this (construct P u c) =
      set_dvi d (with_str f (this (resolve_language u r2))) /\
    forall k, f k = answer P (this (resolve_language u r2)) (szId_of k).
Proof.
  intros Hok.
  destruct (construct_this P u c) as [d ->]. fold sz.
  rewrite (read_resource_full P u sz blk); try assumption;
    [|now rewrite enter_this].
  fold r2. rewrite QueryStrings_parts by now apply loaded_no_fault.
  destruct (query_all_this P (resolve_language u r2)) as (f & -> & Hf).
  now exists d, f.
Qed.

Lemma r2_language : m_strLanguage (this r2) = m_strLanguage o0.
Proof.
  unfold r2. rewrite GetFixedVersionInfo_this. unfold loaded_run.
  cbn [this log upd m_strLanguage set_dvi set_FixedFileInfo set_pVffInfo
       set_bVersionFound].
  now rewrite enter_this.
Qed.

Lemma r2_codepage : m_strCodepage (this r2) = m_strCodepage o0.
Proof.
  unfold r2. rewrite GetFixedVersionInfo_this. unfold loaded_run.
  cbn [this log upd m_strCodepage set_dvi set_FixedFileInfo set_pVffInfo
       set_bVersionFound].
  now rewrite enter_this.
Qed.

Lemma r2_wLanguage : m_wLanguage (this r2) = m_wLanguage o0.
Proof.
  unfold r2. rewrite GetFixedVersionInfo_this. unfold loaded_run.
  cbn [this log upd m_wLanguage set_dvi set_FixedFileInfo set_pVffInfo
       set_bVersionFound].
  now rewrite enter_this.
Qed.

Lemma r2_buffer :
  m_pVffInfo (this r2) = vff_loaded (GetFileVersionInfoSize P sz) blk.
Proof.
  unfold r2. rewrite GetFixedVersionInfo_this. unfold loaded_run.
  reflexivity.
Qed.

Lemma r2_translation :
  VerQueryValue_translation (this r2) = vq_translation blk.
Proof. unfold VerQueryValue_translation, block. now rewrite r2_buffer. Qed.

(** What a member holds once the texts [l] and [cp] are in place. *)
Lemma answer_with (l cp : string) (szId : string) :
  answer P (set_strCodepage cp (set_strLanguage l (this r2))) szId =
  stored P (vq_string blk
    (Printf.StringCch (256 - 1)
       ("\StringFileInfo\" ++ l ++ cp ++ "\" ++ szId))).
Proof.
  unfold answer, selector, VerQueryValue_string, block.
  cbn [m_pVffInfo m_strLanguage m_strCodepage set_strCodepage
       set_strLanguage].
  now rewrite r2_buffer.
Qed.

Lemma answer_kept (szId : string) :
  answer P (this r2) szId = stored P (vq_string blk (selector o0 szId)).
Proof.
  unfold answer, selector, VerQueryValue_string, block.
  now rewrite r2_buffer, r2_language, r2_codepage.
Qed.

(** First-entry selection: the texts become the first translation entry
    in four uppercase hexadecimal digits each. *)
Lemma first_entry_texts (e : LANGUAGEANDCODEPAGE)
    (rest : list LANGUAGEANDCODEPAGE) :
  m_wLanguage o0 = 0 ->
  m_strLanguage o0 = "" \/ m_strCodepage o0 = "" ->
  vq_translation blk = Some (e :: rest) ->
  0 <= wLanguage e < 65536 -> 0 <= wCodePage e < 65536 ->
  this (resolve_language u r2) =
    set_strCodepage (Printf.fmt_pX 4 (wCodePage e))
      (set_strLanguage (Printf.fmt_pX 4 (wLanguage e)) (this r2)).
Proof.
  intros Hw He Ht Hl Hc.
  destruct (resolve_language_first_entry u r2 (e :: rest)) as [-> _].
  - now rewrite r2_wLanguage.
  - rewrite r2_language, r2_codepage. apply orb_true_iff.
    destruct He as [-> | ->]; [left|right]; reflexivity.
  - now rewrite r2_translation.
  - cbn [hd].
    now rewrite !temp_fits by now apply PrintfFacts.fmt_pX_word_length.
Qed.

Lemma given_texts :
  m_wLanguage o0 = 0 ->
  m_strLanguage o0 <> "" -> m_strCodepage o0 <> "" ->
  resolve_language u r2 = r2.
Proof.
  intros Hw Hl Hc. apply resolve_language_given.
  - now rewrite r2_wLanguage.
  - rewrite r2_language, r2_codepage. apply orb_false_iff.
    split; apply not_true_is_false; intros H;
      apply StrFacts.empty_true in H; contradiction.
Qed.

(** Selection by language identifier: the texts are the identifier and
    the codepage variable in four lowercase hexadecimal digits each. *)
Lemma language_id_texts (tbl : list LANGUAGEANDCODEPAGE) :
  m_wLanguage o0 <> 0 ->
  0 <= m_wLanguage o0 < 65536 ->
  vq_translation blk = Some tbl ->
  let codepage :=
    snd (scan_translation tbl (m_wLanguage o0) (u_codepage u)) in
  0 <= codepage < 65536 ->
  this (resolve_language u r2) =
    set_strCodepage (Printf.fmt_0x 4 codepage)
      (set_strLanguage (Printf.fmt_0x 4 (m_wLanguage o0)) (this r2)).
Proof.
  intros Hw Hr Ht codepage Hc.
  destruct (resolve_language_by_id u r2 tbl) as [-> _].
  - now rewrite r2_wLanguage.
  - now rewrite r2_translation.
  - apply r2_fault.
  - rewrite r2_wLanguage. fold codepage.
    now rewrite !temp_fits by now apply PrintfFacts.fmt_0x_word_length.
Qed.

End Loaded.

(** *** The scan of the translation table *)

Lemma scan_translation_first_match (pre post : list LANGUAGEANDCODEPAGE)
    (e : LANGUAGEANDCODEPAGE) (wLang wCodePage0 : WORD) :
  (forall x, In x pre -> wLanguage x <> wLang) ->
  wLanguage e = wLang ->
  scan_translation (pre ++ e :: post) wLang wCodePage0 = (TRUE, wCodePage e).
Proof.
  intros Hpre He. induction pre as [|x pre IH]; cbn [app scan_translation].
  - apply Z.eqb_eq in He. now rewrite He.
  - assert (Hx : wLanguage x <> wLang) by (apply Hpre; now left).
    apply Z.eqb_neq in Hx. rewrite Hx. apply IH.
    intros y Hy. apply Hpre. now right.
Qed.

Lemma scan_translation_no_match (tbl : list LANGUAGEANDCODEPAGE)
    (wLang wCodePage0 : WORD) :
  (forall x, In x tbl -> wLanguage x <> wLang) ->
  scan_translation tbl wLang wCodePage0 = (FALSE, wCodePage0).
Proof.
  intros H. induction tbl as [|x tbl IH]; cbn [scan_translation].
  - reflexivity.
  - assert (Hx : wLanguage x <> wLang) by (apply H; now left).
    apply Z.eqb_neq in Hx. rewrite Hx. apply IH.
    intros y Hy. apply H. now right.
Qed.

(** [GetCodepageForLanguage] on a loaded block with a translation table:
    the first entry of the requested language decides, and without such an
    entry the out-parameter is not written. *)
Lemma GetCodepageForLanguage_scan (u : Uninit) (r : Run)
    (tbl : list LANGUAGEANDCODEPAGE) (wLang wCodePage0 : WORD) :
  VerQueryValue_translation (this r) = Some tbl ->
  fst (GetCodepageForLanguage u wLang wCodePage0 r) =
  scan_translation tbl wLang wCodePage0.
Proof.
  intros H. unfold GetCodepageForLanguage. cbn [fst this log]. now rewrite H.
Qed.

(** C4 (as stated) fails: a language text was supplied (without a
    codepage text), and the first translation entry is selected all the
    same, replacing the supplied language. *)
Lemma first_entry_despite_language :
  let P := Sample.os in
  let c := ByFileLanguage (Some "app.exe") (Some "0407") None in
  let o := this (construct P Sample.clean c) in
  m_strLanguage (this (prepare P Sample.clean c)) = "0407" /\
  vq_translation Sample.app_block
    = Some [ {| wLanguage := 1033; wCodePage := 1200 |} ] /\
  m_strLanguage o = Printf.fmt_pX 4 1033 /\
  m_strCodepage o = Printf.fmt_pX 4 1200 /\
  m_strLanguage o <> "0407" /\
  GetCompanyName o = "Acme Corp".
Proof. vm_compute. repeat split; try reflexivity; discriminate. Qed.

(** C4 (amended). For a construction with full info and no language
    identifier, on a resource that is found and loaded and whose
    translation table starts with [e]: when the language text or the
    codepage text is empty, the active pair is [e] in four uppercase
    hexadecimal digits each, and every string accessor returns what is
    stored under that key for its field (trimmed, empty when absent); when
    both texts were supplied they are kept and the accessors return what
    is stored under the key built from them. *)
Theorem first_entry_selection (P : Platform) (u : Uninit) (c : Construction)
    (blk : VersionBlock) (e : LANGUAGEANDCODEPAGE)
    (rest : list LANGUAGEANDCODEPAGE) :
  let o0 := this (prepare P u c) in
  let o := this (construct P u c) in
  m_bVersionOnly o0 = FALSE ->
  m_wLanguage o0 = 0 ->
  GetFileVersionInfoSize P (target P u c) <> 0 ->
  GetFileVersionInfo P (target P u c) = Some blk ->
  vq_translation blk = Some (e :: rest) ->
  0 <= wLanguage e < 65536 ->
  0 <= wCodePage e < 65536 ->
  (m_strLanguage o0 = "" \/ m_strCodepage o0 = "" ->
   m_strLanguage o = Printf.fmt_pX 4 (wLanguage e) /\
   m_strCodepage o = Printf.fmt_pX 4 (wCodePage e) /\
   forall k,
     getter k o =
       stored P (vq_string blk
         ("\StringFileInfo\" ++ Printf.fmt_pX 4 (wLanguage e) ++
          Printf.fmt_pX 4 (wCodePage e) ++ "\" ++ szId_of k))) /\
  (m_strLanguage o0 <> "" -> m_strCodepage o0 <> "" ->
   m_strLanguage o = m_strLanguage o0 /\
   m_strCodepage o = m_strCodepage o0 /\
   forall k,
     getter k o = stored P (vq_string blk (selector o0 (szId_of k)))).
Proof.
  intros o0 o Hfull Hw Hs Hl Ht Hel Hec. subst o.
  destruct (loaded_construct P u c blk Hfull Hs Hl (or_introl Hw))
    as (d & f & -> & Hf).
  split.
  - intros Hempty.
    rewrite (first_entry_texts P u c blk e rest) in * by assumption.
    cbn [m_strLanguage m_strCodepage set_dvi with_str set_strCodepage
         set_strLanguage].
    split; [reflexivity|]. split; [reflexivity|].
    intros k. rewrite getter_member. cbn [m_str set_dvi with_str].
    rewrite Hf, answer_with. do 2 f_equal.
    apply PrintfFacts.StringCch_fits.
    rewrite !StrFacts.length_app.
    rewrite !PrintfFacts.fmt_pX_word_length by assumption.
    pose proof (szId_length k).
    change (String.length "\StringFileInfo\") with 16%nat.
    change (String.length "\") with 1%nat. lia.
  - intros Hgl Hgc.
    rewrite (given_texts P u c blk) in * by assumption.
    cbn [m_strLanguage m_strCodepage set_dvi with_str].
    split; [apply r2_language|]. split; [apply r2_codepage|].
    intros k. rewrite getter_member. cbn [m_str set_dvi with_str].
    rewrite Hf. apply answer_kept.
Qed.

Lemma first_entry_selection_witness :
  let P := Sample.os in
  let u := Sample.clean in
  let auto := ByFileLanguage (Some "app.exe") None None in
  let given := ByFileLanguage (Some "app.exe") (Some "0409") (Some "04b0") in
  (m_strLanguage (this (prepare P u auto)) = "" /\
   m_strLanguage (this (construct P u auto)) = "0409" /\
   m_strCodepage (this (construct P u auto)) = "04B0" /\
   GetCompanyName (this (construct P u auto)) = "Acme Corp") /\
  (m_strLanguage (this (prepare P u given)) <> "" /\
   m_strCodepage (this (prepare P u given)) <> "" /\
   m_strCodepage (this (construct P u given)) = "04b0" /\
   GetProductName (this (construct P u given)) = "Widget").
Proof.
  intros P u auto given.
  assert (Hs : GetFileVersionInfoSize P "app.exe" <> 0)
    by (vm_compute; discriminate).
  assert (R : 0 <= 1033 < 65536 /\ 0 <= 1200 < 65536) by lia.
  destruct R as [R1 R2].
  destruct (first_entry_selection P u auto Sample.app_block
              {| wLanguage := 1033; wCodePage := 1200 |} []
              eq_refl eq_refl Hs eq_refl eq_refl R1 R2) as [HA _].
  destruct (first_entry_selection P u given Sample.app_block
              {| wLanguage := 1033; wCodePage := 1200 |} []
              eq_refl eq_refl Hs eq_refl eq_refl R1 R2) as [_ HB].
  assert (Hgl : m_strLanguage (this (prepare P u given)) <> "")
    by discriminate.
  assert (Hgc : m_strCodepage (this (prepare P u given)) <> "")
    by discriminate.
  destruct (HA (or_introl eq_refl)) as (HA1 & HA2 & HA3).
  destruct (HB Hgl Hgc) as (HB1 & HB2 & HB3).
  split.
  - split; [reflexivity|]. split; [exact HA1|]. split; [exact HA2|].
    exact (HA3 m_strCompanyName).
  - split; [exact Hgl|]. split; [exact Hgc|]. split; [exact HB2|].
    exact (HB3 m_strProductName).
Defined.

(** With a language identifier, on a loaded resource with a translation
    table, the accessors return what is stored under the identifier and
    the value of the codepage variable after the scan. *)
Lemma language_id_strings (P : Platform) (u : Uninit) (wLang : WORD)
    (blk : VersionBlock) (tbl : list LANGUAGEANDCODEPAGE) :
  let c := ByLanguage wLang in
  let o := this (construct P u c) in
  let codepage := snd (scan_translation tbl wLang (u_codepage u)) in
  0 < wLang < 65536 ->
  GetFileVersionInfoSize P (target P u c) <> 0 ->
  GetFileVersionInfo P (target P u c) = Some blk ->
  vq_translation blk = Some tbl ->
  0 <= codepage < 65536 ->
  m_strLanguage o = Printf.fmt_0x 4 wLang /\
  m_strCodepage o = Printf.fmt_0x 4 codepage /\
  forall k,
    getter k o =
      stored P (vq_string blk
        ("\StringFileInfo\" ++ Printf.fmt_0x 4 wLang ++
         Printf.fmt_0x 4 codepage ++ "\" ++ szId_of k)).
Proof.
  intros c o codepage Hw Hs Hl Ht Hc. subst o.
  assert (Hok : m_wLanguage (this (prepare P u c)) = 0 \/
                vq_translation blk <> None)
    by (right; rewrite Ht; discriminate).
  destruct (loaded_construct P u c blk eq_refl Hs Hl Hok)
    as (d & f & -> & Hf).
  assert (Hw0 : m_wLanguage (this (prepare P u c)) <> 0)
    by (cbn; lia).
  assert (Hwr : 0 <= m_wLanguage (this (prepare P u c)) < 65536)
    by (cbn; lia).
  rewrite (language_id_texts P u c blk tbl Hw0 Hwr Ht Hc) in *.
  cbn [m_strLanguage m_strCodepage set_dvi with_str set_strCodepage
       set_strLanguage].
  split; [reflexivity|]. split; [reflexivity|].
  intros k. rewrite getter_member. cbn [m_str set_dvi with_str].
  rewrite Hf, answer_with. do 2 f_equal.
  apply PrintfFacts.StringCch_fits.
  rewrite !StrFacts.length_app.
  rewrite !PrintfFacts.fmt_0x_word_length by (assumption || (cbn; lia)).
  pose proof (szId_length k).
  change (String.length "\StringFileInfo\") with 16%nat.
  change (String.length "\") with 1%nat. lia.
Qed.

(** C5. A language identifier that no translation entry carries:
    [GetCodepageForLanguage] returns [FALSE] and does not write its
    out-parameter, [QueryStrings] formats the variable all the same, and
    the queries are made under the requested language and whatever the
    variable held; here that is the codepage of the English string table,
    and the company name is found. *)
Theorem language_miss_reads_unwritten_codepage :
  let P := Sample.os_mixed in
  let u := Sample.stale in
  let c := ByLanguage 1033 in
  let r2 := GetFixedVersionInfo
              (loaded_run P (target P u c) Sample.mixed_block
                 (enter (prepare P u c))) in
  vq_translation Sample.mixed_block
    = Some [ {| wLanguage := 1031; wCodePage := 1200 |} ] /\
  fst (GetCodepageForLanguage u 1033 (u_codepage u) r2)
    = (FALSE, u_codepage u) /\
  m_strLanguage (this (construct P u c)) = "0409" /\
  m_strCodepage (this (construct P u c)) = "04b0" /\
  GetCompanyName (this (construct P u c)) = "Acme Corp".
Proof. vm_compute. repeat split; reflexivity. Qed.

End Language.

Module EnvironmentFacts.
Import Environment.

(** C8. For every name and default, the two-argument [get] returns the
    default itself when [has] is false, so it does not throw for an absent
    variable, and returns what the one-argument [get] returns when [has]
    is true. *)
Theorem get_default_spec (impl : EnvironmentImpl)
    (name defaultValue : string) :
  (has impl name = false ->
   get_default impl name defaultValue = Ok defaultValue) /\
  (has impl name = true ->
   get_default impl name defaultValue = get impl name).
Proof.
  unfold get_default. split; intros H; now rewrite H.
Qed.

Lemma get_default_spec_witness :
  (has Sample.host "HOME" = false /\
   get Sample.host "HOME" = Throw (NotFoundException "HOME") /\
   get_default Sample.host "HOME" "/root" = Ok "/root") /\
  (has Sample.host "TEMP" = true /\
   get_default Sample.host "TEMP" "/tmp" = Ok "C:\Temp").
Proof.
  split.
  - split; [reflexivity|]. split; [reflexivity|].
    exact (proj1 (get_default_spec Sample.host "HOME" "/root") eq_refl).
  - split; [reflexivity|].
    exact (proj2 (get_default_spec Sample.host "TEMP" "/tmp") eq_refl).
Defined.

(** [%02x] of one byte: two lowercase hexadecimal digits whose value is
    the byte. *)
Lemma fmt_02x_byte_closed (b : byte) :
  let s := Printf.fmt_0x 2 (Z.of_N (Byte.to_N b)) in
  String.length s = 2%nat /\
  hex_pairs 1 s = true /\
  pair_value s = Some (Byte.to_N b).
Proof. destruct b; vm_compute; repeat split. Qed.

Lemma fmt_02x_byte (b : byte) :
  exists h l,
    Printf.fmt_0x 2 (Z.of_N (Byte.to_N b)) = String h (String l EmptyString) /\
    is_lower_hex h = true /\ is_lower_hex l = true /\
    pair_value (String h (String l EmptyString)) = Some (Byte.to_N b).
Proof.
  destruct (fmt_02x_byte_closed b) as (Hlen & Hpat & Hval).
  destruct (Printf.fmt_0x 2 (Z.of_N (Byte.to_N b))) as [|h [|l [|x t]]];
    try discriminate Hlen.
  exists h, l. cbn [hex_pairs] in Hpat.
  apply andb_true_iff in Hpat as [Hh Hl]. now repeat split.
Qed.

(** C9. For every six-byte identifier of the backend, [nodeId] produces a
    string; it consists of six pairs of lowercase hexadecimal digits joined
    by colons, and the [i]-th pair is the [%02x] text of byte [i] and
    denotes that byte. *)
Theorem nodeId_format (impl : EnvironmentImpl) :
  List.length (nodeIdImpl impl) = 6%nat ->
  exists s,
    nodeId impl = Some s /\
    String.length s = 17%nat /\
    hex_pairs 6 s = true /\
    forall i, (i < 6)%nat ->
      pair_at i s = Printf.fmt_0x 2 (at_index (nodeIdImpl impl) i) /\
      pair_value (pair_at i s) = Some (Byte.to_N (nth i (nodeIdImpl impl) "000"%byte)).
Proof.
  intros Hlen. unfold nodeId, nodeId_bytes.
  destruct (nodeIdImpl impl) as [|b0 [|b1 [|b2 [|b3 [|b4 [|b5 [|b6 rest]]]]]]];
    try discriminate Hlen.
  unfold at_index. cbn [nth].
  destruct (fmt_02x_byte b0) as (h0 & l0 & E0 & Hh0 & Hl0 & V0).
  destruct (fmt_02x_byte b1) as (h1 & l1 & E1 & Hh1 & Hl1 & V1).
  destruct (fmt_02x_byte b2) as (h2 & l2 & E2 & Hh2 & Hl2 & V2).
  destruct (fmt_02x_byte b3) as (h3 & l3 & E3 & Hh3 & Hl3 & V3).
  destruct (fmt_02x_byte b4) as (h4 & l4 & E4 & Hh4 & Hl4 & V4).
  destruct (fmt_02x_byte b5) as (h5 & l5 & E5 & Hh5 & Hl5 & V5).
  rewrite E0, E1, E2, E3, E4, E5.
  eexists. split; [reflexivity|]. split; [reflexivity|]. split.
  - cbn [append hex_pairs].
    now rewrite Hh0, Hl0, Hh1, Hl1, Hh2, Hl2, Hh3, Hl3, Hh4, Hl4, Hh5, Hl5.
  - intros i Hi.
    destruct i as [|[|[|[|[|[|i]]]]]]; try lia; cbn [nth];
      rewrite ?E0, ?E1, ?E2, ?E3, ?E4, ?E5;
      (split; [reflexivity|assumption]).
Qed.

Lemma nodeId_format_witness :
  List.length (nodeIdImpl Sample.host) = 6%nat /\
  nodeId Sample.host = Some "00:1a:2b:3c:4d:5e".
Proof.
  split; [reflexivity|].
  destruct (nodeId_format Sample.host eq_refl) as (s & Hs & _).
  rewrite Hs. vm_compute in Hs. injection Hs as <-. reflexivity.
Defined.

End EnvironmentFacts.

(** ** Further properties of version.cpp *)

Module VersionText.
Import Version VersionFacts Accessors.

Lemma split_on_field (sep : ascii) (a rest : string) :
  has_char sep a = false ->
  split_on sep (a ++ String sep rest) = a :: split_on sep rest.
Proof.
  induction a as [|c a IH]; cbn [has_char append split_on]; intros H.
  - now rewrite Ascii.eqb_refl.
  - apply orb_false_iff in H as [Hc Ha]. rewrite Hc, (IH Ha). reflexivity.
Qed.

Lemma split_on_last (sep : ascii) (a : string) :
  has_char sep a = false -> split_on sep a = [a].
Proof.
  induction a as [|c a IH]; cbn [has_char split_on]; intros H.
  - reflexivity.
  - apply orb_false_iff in H as [Hc Ha]. now rewrite Hc, (IH Ha).
Qed.

(** [%d] of a 16-bit word has no dot and reads back as the word. *)
Lemma fmt_d_word_reads_back (w : Z) :
  0 <= w < 65536 ->
  has_char "." (Printf.fmt_d w) = false /\
  parse_dec (Printf.fmt_d w) = Some w.
Proof.
  intros H.
  assert (C : Printf.all_words 16 0
                (fun z => negb (has_char "." (Printf.fmt_d z)) &&
                          match parse_dec (Printf.fmt_d z) with
                          | Some v => v =? z
                          | None => false
                          end) = true)
    by (vm_compute; reflexivity).
  pose proof (PrintfFacts.all_words_spec _ _ _ C w) as Hw.
  cbv beta in Hw. change (2 ^ Z.of_nat 16) with 65536 in Hw.
  specialize (Hw ltac:(lia)).
  apply andb_true_iff in Hw as [Hd Hp].
  apply negb_true_iff in Hd. split; [exact Hd|].
  destruct (parse_dec (Printf.fmt_d w)) as [v|]; [|discriminate].
  apply Z.eqb_eq in Hp. now subst.
Qed.

(** The dotted text of four 16-bit words reads back as the words. *)
Lemma dotted_text_parses (major minor build revision : Z) :
  0 <= major < 65536 -> 0 <= minor < 65536 ->
  0 <= build < 65536 -> 0 <= revision < 65536 ->
  parse_version (spec_version_string major minor build revision) =
  Some (major, minor, build, revision).
Proof.
  intros H1 H2 H3 H4.
  unfold spec_version_string, parse_version.
  destruct (fmt_d_word_reads_back _ H1) as [D1 P1].
  destruct (fmt_d_word_reads_back _ H2) as [D2 P2].
  destruct (fmt_d_word_reads_back _ H3) as [D3 P3].
  destruct (fmt_d_word_reads_back _ H4) as [D4 P4].
  destruct (revision =? 0) eqn:E.
  - apply Z.eqb_eq in E. rewrite E.
    cbn [append].
    rewrite !split_on_field, split_on_last by assumption.
    cbn [List.map]. now rewrite P1, P2, P3.
  - cbn [append].
    rewrite !split_on_field, split_on_last by assumption.
    cbn [List.map]. now rewrite P1, P2, P3, P4.
Qed.

(** X1. The text made by [MakeVersionString] reads back as the four 16-bit
    words it was made from, a missing fourth number standing for zero. *)
Theorem MakeVersionString_reads_back (hi lo : DWORD) :
  parse_version (MakeVersionString hi lo) =
  Some (HIWORD hi, LOWORD hi, HIWORD lo, LOWORD lo).
Proof.
  rewrite VersionString.MakeVersionString_untruncated.
  apply dotted_text_parses.
  - apply WordFacts.HIWORD_range.
  - apply WordFacts.LOWORD_range.
  - apply WordFacts.HIWORD_range.
  - apply WordFacts.LOWORD_range.
Qed.

Lemma version_text_parses (hi lo : DWORD) :
  parse_version (MakeVersionString hi lo) =
  Some (HIWORD hi, LOWORD hi, HIWORD lo, LOWORD lo).
Proof.
  rewrite VersionString.MakeVersionString_untruncated.
  apply dotted_text_parses;
    auto using WordFacts.HIWORD_range, WordFacts.LOWORD_range.
Qed.

(** X2. On 32-bit halves [MakeVersionString] is injective: two versions
    with the same text are the same version. *)
Theorem MakeVersionString_injective (hi lo hi' lo' : DWORD) :
  0 <= hi < 2 ^ 32 -> 0 <= lo < 2 ^ 32 ->
  0 <= hi' < 2 ^ 32 -> 0 <= lo' < 2 ^ 32 ->
  MakeVersionString hi lo = MakeVersionString hi' lo' ->
  hi = hi' /\ lo = lo'.
Proof.
  intros H1 H2 H3 H4 E.
  pose proof (version_text_parses hi lo) as R.
  rewrite E, version_text_parses in R.
  injection R as Ea Eb Ec Ed.
  change (2 ^ 32) with 4294967296 in *.
  rewrite !WordFacts.HIWORD_div in * by assumption.
  rewrite !WordFacts.LOWORD_mod in *.
  rewrite (Z.div_mod hi 65536), (Z.div_mod hi' 65536) by lia.
  rewrite (Z.div_mod lo 65536), (Z.div_mod lo' 65536) by lia.
  split; congruence.
Qed.

Lemma MakeVersionString_injective_witness :
  MakeVersionString 65538 196612 = MakeVersionString 65538 196612 /\
  (65538 = 65538 /\ 196612 = 196612).
Proof.
  split; [reflexivity|].
  apply (MakeVersionString_injective 65538 196612 65538 196612);
    try lia; reflexivity.
Defined.

Lemma MakeVersionString_not_empty (hi lo : DWORD) :
  MakeVersionString hi lo <> "".
Proof.
  intros E. pose proof (version_text_parses hi lo) as R.
  rewrite E in R. discriminate R.
Qed.

(** X3. The two string accessors of the fixed version return the empty
    string exactly when the found flag is unset, and the file-version
    string is then the text of the two numbers that the two-out-parameter
    accessor hands out. *)
Theorem fixed_accessors_agree (o : CVersionInfo) :
  (GetFixedFileVersion o = "" <-> m_bVersionFound o = FALSE) /\
  (GetFixedProductVersion o = "" <-> m_bVersionFound o = FALSE) /\
  forall ms ls,
    GetFixedFileVersion o =
      match GetFixedFileVersion_out o ms ls with
      | (0, _, _) => ""
      | (_, ms', ls') => MakeVersionString ms' ls'
      end.
Proof.
  unfold GetFixedFileVersion, GetFixedProductVersion,
    GetFixedFileVersion_out, truthy, FALSE.
  destruct (m_bVersionFound o =? 0) eqn:E; cbn [negb].
  - apply Z.eqb_eq in E. repeat split; auto.
  - apply Z.eqb_neq in E. repeat split; intros H; try contradiction;
      exfalso; eapply MakeVersionString_not_empty; eassumption.
Qed.

End VersionText.

Module Scan.
Import Version VersionFacts.

Lemma scan_translation_cases (tbl : list LANGUAGEANDCODEPAGE)
    (wLang wCodePage0 : WORD) :
  (exists pre e post,
     tbl = (pre ++ e :: post)%list /\
     (forall x, In x pre -> wLanguage x <> wLang) /\
     wLanguage e = wLang /\
     scan_translation tbl wLang wCodePage0 = (TRUE, wCodePage e)) \/
  ((forall x, In x tbl -> wLanguage x <> wLang) /\
   scan_translation tbl wLang wCodePage0 = (FALSE, wCodePage0)).
Proof.
  induction tbl as [|x tbl IH]; cbn [scan_translation].
  - right. split; [intros x []|reflexivity].
  - destruct (wLanguage x =? wLang) eqn:E.
    + left. exists [], x, tbl. apply Z.eqb_eq in E.
      repeat split; auto.
    + apply Z.eqb_neq in E. destruct IH as [(pre & e & post & -> & Hp & He & Hs)|[Hn Hs]].
      * left. exists (x :: pre), e, post. repeat split; auto.
        intros y [<-|Hy]; auto.
      * right. split; [|exact Hs]. intros y [<-|Hy]; auto.
Qed.

(** X4. [GetCodepageForLanguage] on a block with a translation table:
    it leaves the record alone and makes one translation query; it returns
    [TRUE] with the codepage of the first entry that carries the language,
    or [FALSE] with the out-parameter as it was when no entry carries
    it. *)
Theorem GetCodepageForLanguage_result (u : Uninit) (r : Run)
    (tbl : list LANGUAGEANDCODEPAGE) (wLang wCodePage0 : WORD) :
  VerQueryValue_translation (this r) = Some tbl ->
  let '(bFound, wCodePage1, r') :=
    GetCodepageForLanguage u wLang wCodePage0 r in
  this r' = this r /\
  calls r' = (calls r ++ [CallVerQueryValue "\VarFileInfo\Translation"])%list /\
  ((bFound = TRUE /\
    exists pre e post,
      tbl = (pre ++ e :: post)%list /\
      (forall x, In x pre -> wLanguage x <> wLang) /\
      wLanguage e = wLang /\ wCodePage1 = wCodePage e) \/
   (bFound = FALSE /\ wCodePage1 = wCodePage0 /\
    forall x, In x tbl -> wLanguage x <> wLang)).
Proof.
  intros Ht. unfold GetCodepageForLanguage. cbn [this log]. rewrite Ht.
  destruct (scan_translation_cases tbl wLang wCodePage0)
    as [(pre & e & post & E & Hp & He & ->)|[Hn ->]].
  - split; [reflexivity|]. split; [reflexivity|]. left.
    split; [reflexivity|]. now exists pre, e, post.
  - split; [reflexivity|]. split; [reflexivity|]. now right.
Qed.

Lemma GetCodepageForLanguage_result_witness :
  let r := GetFixedVersionInfo
             (loaded_run Sample.os "app.exe" Sample.app_block
                (start (members Sample.clean 0 FALSE FALSE))) in
  let tbl := [ {| wLanguage := 1033; wCodePage := 1200 |} ] in
  VerQueryValue_translation (this r) = Some tbl /\
  let '(bFound, wCodePage1, r') :=
    GetCodepageForLanguage Sample.clean 1033 7 r in
  this r' = this r /\
  calls r' = (calls r ++ [CallVerQueryValue "\VarFileInfo\Translation"])%list /\
  ((bFound = TRUE /\
    exists pre e post,
      tbl = (pre ++ e :: post)%list /\
      (forall x, In x pre -> wLanguage x <> 1033) /\
      wLanguage e = 1033 /\ wCodePage1 = wCodePage e) \/
   (bFound = FALSE /\ wCodePage1 = 7 /\
    forall x, In x tbl -> wLanguage x <> 1033)).
Proof.
  intros r tbl. split; [reflexivity|].
  apply (GetCodepageForLanguage_result Sample.clean r tbl 1033 7).
  reflexivity.
Defined.

End Scan.

Module CallLog.
Import Version VersionFacts Accessors.

Lemma filter_none (p q : OsCall -> bool) (l : list OsCall) :
  (forall c, q c = true -> p c = false) ->
  forallb q l = true -> filter p l = [].
Proof.
  intros Hpq. induction l as [|c l IH]; cbn [forallb filter]; intros H.
  - reflexivity.
  - apply andb_true_iff in H as [Hc Hl]. now rewrite (Hpq c Hc), IH.
Qed.

Section Log.

Variable P : Platform.
Variable u : Uninit.

Lemma call_DllGetVersion_calls (h : HINSTANCE) (r : Run) :
  calls (call_DllGetVersion P h r) =
  (calls r ++ match GetProcAddress_DllGetVersion P h with
              | Some _ => [CallDllGetVersion]
              | None => []
              end)%list.
Proof.
  unfold call_DllGetVersion.
  destruct (GetProcAddress_DllGetVersion P h) as [proc|];
    [|now rewrite app_nil_r].
  destruct (proc _) as [hr dvi]. now destruct (FAILED hr).
Qed.

(** The DLL stage appends exactly [dll_sequence]. *)
Lemma read_dll_calls (sz : string) (r : Run) :
  calls (read_dll P sz r) =
  (calls r ++ dll_sequence P (m_bDllVersion (this r)) sz)%list.
Proof.
  unfold read_dll, dll_sequence.
  destruct (truthy (m_bDllVersion (this r))); [|now rewrite app_nil_r].
  destruct (negb (LoadLibrary P sz =? NULL)); [|reflexivity].
  cbn [calls log]. rewrite call_DllGetVersion_calls. cbn [calls log].
  now rewrite <- !app_assoc.
Qed.

Lemma dll_sequence_kind (b : BOOL) (sz : string) :
  forallb is_dll_call (dll_sequence P b sz) = true.
Proof.
  unfold dll_sequence. destruct (truthy b); [|reflexivity].
  destruct (negb (LoadLibrary P sz =? NULL)); [|reflexivity].
  now destruct (GetProcAddress_DllGetVersion P (LoadLibrary P sz)).
Qed.

Lemma forallb_snoc (q : OsCall -> bool) (l : list OsCall) (c : OsCall) :
  forallb q l = true -> q c = true -> forallb q (l ++ [c]) = true.
Proof. intros Hl Hc. rewrite forallb_app, Hl. cbn. now rewrite Hc. Qed.

Lemma resolve_language_calls (r : Run) :
  exists l, calls (resolve_language u r) = (calls r ++ l)%list /\
            forallb is_resource_call l = true.
Proof.
  destruct (resolve_language_adds u r) as [-> | ->].
  - exists []. now rewrite app_nil_r.
  - eexists. split; reflexivity.
Qed.

Lemma QueryStrings_calls (r : Run) :
  exists l, calls (QueryStrings P u r) = (calls r ++ l)%list /\
            forallb is_resource_call l = true.
Proof.
  destruct (QueryStrings_cases P u r) as [[_ ->]|[_ ->]];
    [|apply resolve_language_calls].
  rewrite query_all_list, query_list_calls.
  destruct (resolve_language_calls r) as (l & -> & Hl).
  eexists. rewrite <- app_assoc. split; [reflexivity|].
  rewrite forallb_app, Hl. reflexivity.
Qed.

(** The resource stage appends size, load and query calls only. *)
Lemma read_resource_calls (sz : string) (r : Run) :
  exists l, calls (read_resource P u sz r) = (calls r ++ l)%list /\
            forallb is_resource_call l = true.
Proof.
  destruct (Z.eq_dec (GetFileVersionInfoSize P sz) 0) as [Hs|Hs].
  - rewrite read_resource_absent by assumption. eexists. split; reflexivity.
  - destruct (GetFileVersionInfo P sz) as [b|] eqn:Hl.
    + destruct (Z.eq_dec (m_bVersionOnly (this r)) FALSE) as [Hv|Hv].
      * rewrite (read_resource_full P u sz b) by assumption.
        destruct (QueryStrings_calls (GetFixedVersionInfo (loaded_run P sz b r)))
          as (l & -> & Hq).
        rewrite GetFixedVersionInfo_calls. unfold loaded_run.
        cbn [calls log upd]. eexists. rewrite <- !app_assoc.
        split; [reflexivity|]. cbn [app forallb is_resource_call andb].
        exact Hq.
      * rewrite (read_resource_version_only P u sz b) by assumption.
        rewrite GetFixedVersionInfo_calls. unfold loaded_run.
        cbn [calls log upd]. eexists. rewrite <- !app_assoc.
        split; reflexivity.
    + rewrite read_resource_load_failed by assumption.
      cbn [calls log upd]. eexists. rewrite <- !app_assoc.
      split; reflexivity.
Qed.

Lemma enter_prepare_calls (c : Construction) :
  forallb is_path_call (calls (enter (prepare P u c))) = true.
Proof.
  unfold enter. cbn [this upd].
  destruct (Str.empty _); destruct c; reflexivity.
Qed.

Lemma enter_flag (c : Construction) :
  m_bDllVersion (this (enter (prepare P u c))) =
  m_bDllVersion (this (prepare P u c)).
Proof. now rewrite enter_this. Qed.

(** The log of a construction: path calls, then resource calls, then the
    DLL sequence. *)
Lemma construct_calls (c : Construction) :
  exists mid,
    calls (construct P u c) =
      (calls (enter (prepare P u c)) ++ mid ++
       dll_sequence P (m_bDllVersion (this (prepare P u c))) (target P u c))%list /\
    forallb is_resource_call mid = true.
Proof.
  rewrite construct_prepare.
  destruct (GetVersionInfo_cases P u (prepare P u c)) as [[_ ->]|[Hf ->]];
    fold (target P u c) in *.
  - rewrite read_dll_calls.
    destruct (read_resource_flags P u (target P u c) (enter (prepare P u c)))
      as (-> & _).
    rewrite enter_flag.
    destruct (read_resource_calls (target P u c) (enter (prepare P u c)))
      as (mid & -> & Hmid).
    exists mid. now rewrite <- app_assoc.
  - destruct (construct_faults P u c Hf) as (_ & -> & _).
    destruct (read_resource_calls (target P u c) (enter (prepare P u c)))
      as (mid & -> & Hmid).
    exists mid. unfold dll_sequence. cbn [truthy FALSE Z.eqb negb].
    now rewrite app_nil_r.
Qed.

End Log.

(** X5. Every construction ends its log with the DLL sequence and has no
    DLL call before it: [LoadLibrary] is called once when the DLL version
    is asked for and never otherwise; after a successful load come
    [GetProcAddress], [DllGetVersion] if the symbol exists, and one
    [FreeLibrary] of the handle; after a failed load comes nothing. *)
Theorem dll_calls_protocol (P : Platform) (u : Uninit) (c : Construction) :
  exists before,
    calls (construct P u c) =
      (before ++
       dll_sequence P (m_bDllVersion (this (prepare P u c))) (target P u c))%list /\
    filter is_dll_call before = [].
Proof.
  destruct (construct_calls P u c) as (mid & -> & Hmid).
  exists (calls (enter (prepare P u c)) ++ mid)%list.
  rewrite <- app_assoc. split; [reflexivity|].
  rewrite filter_app.
  rewrite (filter_none is_dll_call is_path_call), (filter_none is_dll_call is_resource_call);
    auto using enter_prepare_calls; now intros [].
Qed.

(** X6. A construction never queries a block it did not load: when the
    size query returns zero it calls neither [GetFileVersionInfo] nor
    [VerQueryValue], and when the load fails it calls no
    [VerQueryValue]. *)
Theorem no_query_without_block (P : Platform) (u : Uninit)
    (c : Construction) :
  (GetFileVersionInfoSize P (target P u c) = 0 ->
   filter is_info_load (calls (construct P u c)) = [] /\
   filter is_query (calls (construct P u c)) = []) /\
  (GetFileVersionInfo P (target P u c) = None ->
   filter is_query (calls (construct P u c)) = []).
Proof.
  assert (Hpre : forall p, (forall x, is_path_call x = true -> p x = false) ->
                 filter p (calls (enter (prepare P u c))) = []).
  { intros p Hp. apply (filter_none p is_path_call); auto.
    apply enter_prepare_calls. }
  assert (Hdll : forall p b sz, (forall x, is_dll_call x = true -> p x = false) ->
                 filter p (dll_sequence P b sz) = []).
  { intros p b sz Hp. apply (filter_none p is_dll_call); auto.
    apply dll_sequence_kind. }
  destruct (fault (read_resource P u (target P u c) (enter (prepare P u c))))
    eqn:Hf.
  { destruct (construct_faults P u c Hf) as (_ & _ & b & Hs & Hl & _).
    split; intros H; [contradiction|congruence]. }
  rewrite construct_prepare, GetVersionInfo_stages by exact Hf.
  fold (target P u c).
  rewrite read_dll_calls.
  split.
  - intros Hs. rewrite read_resource_absent by assumption.
    cbn [calls log]. rewrite !filter_app.
    rewrite !Hdll, !Hpre by now intros []. split; reflexivity.
  - intros Hl.
    destruct (Z.eq_dec (GetFileVersionInfoSize P (target P u c)) 0) as [Hs|Hs].
    + rewrite read_resource_absent by assumption.
      cbn [calls log]. rewrite !filter_app.
      rewrite !Hdll, !Hpre by now intros []. reflexivity.
    + rewrite read_resource_load_failed by assumption.
      cbn [calls log upd]. rewrite !filter_app.
      rewrite !Hdll, !Hpre by now intros []. reflexivity.
Qed.

Lemma no_query_without_block_witness :
  let P := Sample.os in
  let u := Sample.clean in
  let plain := ByFileDll (Some "plain.txt") TRUE in
  let broken := ByFileDll (Some "broken.exe") TRUE in
  (GetFileVersionInfoSize P (target P u plain) = 0 /\
   filter is_query (calls (construct P u plain)) = []) /\
  (GetFileVersionInfo P (target P u broken) = None /\
   filter is_query (calls (construct P u broken)) = []).
Proof.
  intros P u plain broken. split.
  - split; [reflexivity|].
    exact (proj2 (proj1 (no_query_without_block P u plain) eq_refl)).
  - split; [reflexivity|].
    exact (proj2 (no_query_without_block P u broken) eq_refl).
Defined.

End CallLog.

Module FixedInfo.
Import Version VersionFacts Accessors.

Section Found.

Variable P : Platform.
Variable u : Uninit.
Variable c : Construction.
Variable blk : VersionBlock.

Hypothesis found : GetFileVersionInfoSize P (target P u c) <> 0.
Hypothesis loaded : GetFileVersionInfo P (target P u c) = Some blk.

Let fixed : VS_FIXEDFILEINFO :=
  match vq_root blk with
  | Some pffi => pffi
  | None => zero_ffi
  end.

(** The record after the resource stage, as far as the fixed info goes. *)
Lemma resource_stage_fixed :
  let r1 := read_resource P u (target P u c) (enter (prepare P u c)) in
  m_bVersionFound (this r1) = TRUE /\
  m_FixedFileInfo (this r1) = fixed /\
  m_dvi (this r1) = dvi_of_fixed fixed zero_dvi.
Proof.
  intros r1. subst r1.
  assert (Hroot : VerQueryValue_root
                    (this (loaded_run P (target P u c) blk
                             (enter (prepare P u c)))) = vq_root blk)
    by reflexivity.
  assert (Hdvi : m_dvi (this (loaded_run P (target P u c) blk
                                (enter (prepare P u c)))) = zero_dvi)
    by (unfold loaded_run; cbn [this log upd m_dvi set_pVffInfo
          set_bVersionFound]; now rewrite enter_this).
  destruct (Z.eq_dec (m_bVersionOnly (this (enter (prepare P u c)))) FALSE)
    as [Hv|Hv].
  - rewrite (read_resource_full P u _ blk) by assumption.
    destruct (QueryStrings_this P u
                (GetFixedVersionInfo
                   (loaded_run P (target P u c) blk (enter (prepare P u c)))))
      as (l & cp & f & ->).
    rewrite GetFixedVersionInfo_this, Hroot, Hdvi.
    repeat split.
  - rewrite (read_resource_version_only P u _ blk) by assumption.
    rewrite GetFixedVersionInfo_this, Hroot, Hdvi.
    repeat split.
Qed.

End Found.

(** X7. For a constructor that sets no language identifier, or on a
    block that holds a translation value: once the resource is found and
    loaded the construction completes without a fault, the found flag is
    [TRUE] and the fixed-version accessors format the fixed info of the
    block; when the block has no readable fixed info they format zeros,
    so both return ["0.0.0"]. *)
Theorem fixed_info_of_loaded_block (P : Platform) (u : Uninit)
    (c : Construction) (blk : VersionBlock) :
  GetFileVersionInfoSize P (target P u c) <> 0 ->
  GetFileVersionInfo P (target P u c) = Some blk ->
  m_wLanguage (this (prepare P u c)) = 0 \/ vq_translation blk <> None ->
  let o := this (construct P u c) in
  fault (construct P u c) = false /\
  m_bVersionFound o = TRUE /\
  (forall ffi, vq_root blk = Some ffi ->
     GetFixedFileVersion o =
       MakeVersionString (dwFileVersionMS ffi) (dwFileVersionLS ffi) /\
     GetFixedProductVersion o =
       MakeVersionString (dwProductVersionMS ffi) (dwProductVersionLS ffi)) /\
  (vq_root blk = None ->
     GetFixedFileVersion o = "0.0.0" /\ GetFixedProductVersion o = "0.0.0" /\
     forall ms ls, GetFixedFileVersion_out o ms ls = (TRUE, 0, 0)).
Proof.
  intros Hs Hl Hok o. subst o. split.
  { rewrite construct_fault. apply construct_no_fault.
    destruct Hok as [Hw|Ht]; [now left|right].
    intros b Hb. rewrite Hl in Hb. now injection Hb as <-. }
  destruct (construct_this P u c) as [d ->].
  destruct (resource_stage_fixed P u c blk Hs Hl) as (Hf & Hffi & _).
  unfold GetFixedFileVersion, GetFixedProductVersion, GetFixedFileVersion_out.
  cbn [m_bVersionFound m_FixedFileInfo set_dvi].
  rewrite Hf, Hffi. cbn [truthy TRUE Z.eqb negb].
  split; [reflexivity|]. split.
  - intros ffi ->. split; reflexivity.
  - intros ->. cbn [zero_ffi dwFileVersionMS dwFileVersionLS
      dwProductVersionMS dwProductVersionLS].
    rewrite MakeVersionString_zero. repeat split.
Qed.

Lemma fixed_info_of_loaded_block_witness :
  let P := Sample.os in
  let c := ByFileLanguage (Some "app.exe") None None in
  let o := this (construct P Sample.clean c) in
  GetFileVersionInfoSize P (target P Sample.clean c) <> 0 /\
  GetFileVersionInfo P (target P Sample.clean c) = Some Sample.app_block /\
  m_wLanguage (this (prepare P Sample.clean c)) = 0 /\
  fault (construct P Sample.clean c) = false /\
  GetFixedFileVersion o = "1.2.3.4".
Proof.
  intros P c o.
  assert (Hs : GetFileVersionInfoSize P (target P Sample.clean c) <> 0)
    by (vm_compute; discriminate).
  split; [exact Hs|]. split; [reflexivity|]. split; [reflexivity|].
  destruct (fixed_info_of_loaded_block P Sample.clean c Sample.app_block
              Hs eq_refl (or_introl eq_refl)) as (Hnf & _ & Hf & _).
  split; [exact Hnf|].
  exact (proj1 (Hf _ eq_refl)).
Defined.

Lemma read_dll_with_symbol (P : Platform) (sz : string) (r : Run)
    (DllGetVersion : DLLGETVERSIONPROC) :
  m_bDllVersion (this r) <> FALSE ->
  LoadLibrary P sz <> NULL ->
  GetProcAddress_DllGetVersion P (LoadLibrary P sz) = Some DllGetVersion ->
  let passed := set_cbSize sizeof_DLLVERSIONINFO (m_dvi (this r)) in
  this (read_dll P sz r) =
    set_dvi (if FAILED (fst (DllGetVersion passed))
             then set_cbSize 0 (snd (DllGetVersion passed))
             else snd (DllGetVersion passed)) (this r).
Proof.
  intros Hb Hh Hp passed. subst passed.
  unfold read_dll, call_DllGetVersion, truthy.
  apply Z.eqb_neq in Hb, Hh. unfold FALSE in Hb.
  rewrite Hb, Hh. cbn [negb this log]. rewrite Hp.
  cbn [this upd log m_dvi set_dvi].
  destruct (DllGetVersion _) as [hr dvi]. cbn [fst snd].
  destruct (FAILED hr); reflexivity.
Qed.

(** X8. A DLL-version query on a module that loads and exports
    [DllGetVersion]: the function receives the structure with [cbSize] set
    to the structure size and the numbers of the fixed file version
    filled in; the record keeps what the function left, with [cbSize]
    reset to zero when the function fails. *)
Theorem dll_version_call (P : Platform) (u : Uninit)
    (szFileToVersion : option string) (bDllVersion : BOOL)
    (DllGetVersion : DLLGETVERSIONPROC) :
  let c := ByFileDll szFileToVersion bDllVersion in
  let hinstDll := LoadLibrary P (target P u c) in
  let o := this (construct P u c) in
  bDllVersion <> FALSE ->
  hinstDll <> NULL ->
  GetProcAddress_DllGetVersion P hinstDll = Some DllGetVersion ->
  let passed :=
    {| cbSize := sizeof_DLLVERSIONINFO;
       dwMajorVersion := HIWORD (dwFileVersionMS (m_FixedFileInfo o));
       dwMinorVersion := LOWORD (dwFileVersionMS (m_FixedFileInfo o));
       dwBuildNumber := HIWORD (dwFileVersionLS (m_FixedFileInfo o));
       dwPlatformID := 0 |} in
  m_dvi o =
    (if FAILED (fst (DllGetVersion passed))
     then set_cbSize 0 (snd (DllGetVersion passed))
     else snd (DllGetVersion passed)).
Proof.
  intros c hinstDll o Hb Hh Hp passed. subst o passed.
  rewrite construct_stages by (left; subst c; now destruct szFileToVersion).
  set (r1 := read_resource P u (target P u c) (enter (prepare P u c))).
  assert (Hdll : m_bDllVersion (this r1) <> FALSE).
  { subst r1.
    destruct (read_resource_flags P u (target P u c) (enter (prepare P u c)))
      as (-> & _).
    rewrite enter_this. subst c. now destruct szFileToVersion. }
  assert (Hdvi : m_dvi (this r1) =
                 dvi_of_fixed (m_FixedFileInfo (this r1)) zero_dvi).
  { subst r1. apply read_resource_dvi; now rewrite enter_this. }
  rewrite (read_dll_with_symbol P (target P u c) r1 DllGetVersion Hdll Hh Hp).
  cbn [m_dvi m_FixedFileInfo set_dvi]. rewrite Hdvi. reflexivity.
Qed.

Lemma dll_version_call_witness :
  let P :=
    {| GetModuleFileName := fun _ => "app.exe";
       GetFileVersionInfoSize := fun _ => 1024;
       GetFileVersionInfo := fun _ => Some Sample.app_block;
       LoadLibrary := fun _ => 4194304;
       GetProcAddress_DllGetVersion := fun _ =>
         Some (fun d => if cbSize d =? 20
                        then (0, {| cbSize := 20; dwMajorVersion := 6;
                                    dwMinorVersion := 1; dwBuildNumber := 7601;
                                    dwPlatformID := 2 |})
                        else (-2147024809, d));
       trim_ws := Sample.trim |} in
  let c := ByFileDll (Some "app.exe") TRUE in
  TRUE <> FALSE /\
  LoadLibrary P (target P Sample.clean c) <> NULL /\
  m_dvi (this (construct P Sample.clean c)) =
    {| cbSize := 20; dwMajorVersion := 6; dwMinorVersion := 1;
       dwBuildNumber := 7601; dwPlatformID := 2 |}.
Proof.
  intros P c.
  assert (Hb : TRUE <> FALSE) by discriminate.
  assert (Hh : LoadLibrary P (target P Sample.clean c) <> NULL)
    by (vm_compute; discriminate).
  split; [exact Hb|]. split; [exact Hh|].
  exact (eq_trans
           (dll_version_call P Sample.clean (Some "app.exe") TRUE _ Hb Hh
              eq_refl)
           eq_refl).
Defined.

End FixedInfo.

Module Keys.
Import Version VersionFacts Accessors Language.

(** X9. A language identifier that the translation table carries: the
    queries are made under the identifier and the codepage of the first
    entry that carries it, each in four lowercase hexadecimal digits,
    whatever the storage of the codepage variable held. *)
Theorem language_id_match (P : Platform) (u : Uninit) (wLang : WORD)
    (blk : VersionBlock) (pre post : list LANGUAGEANDCODEPAGE)
    (e : LANGUAGEANDCODEPAGE) :
  let c := ByLanguage wLang in
  let o := this (construct P u c) in
  0 < wLang < 65536 ->
  GetFileVersionInfoSize P (target P u c) <> 0 ->
  GetFileVersionInfo P (target P u c) = Some blk ->
  vq_translation blk = Some (pre ++ e :: post)%list ->
  (forall x, In x pre -> wLanguage x <> wLang) ->
  wLanguage e = wLang ->
  0 <= wCodePage e < 65536 ->
  m_strLanguage o = Printf.fmt_0x 4 wLang /\
  m_strCodepage o = Printf.fmt_0x 4 (wCodePage e) /\
  forall k,
    getter k o =
      stored P (vq_string blk
        ("\StringFileInfo\" ++ Printf.fmt_0x 4 wLang ++
         Printf.fmt_0x 4 (wCodePage e) ++ "\" ++ szId_of k)).
Proof.
  intros c o Hw Hs Hl Ht Hpre He Hc.
  pose proof (language_id_strings P u wLang blk (pre ++ e :: post) Hw Hs Hl Ht)
    as H.
  cbv zeta in H.
  rewrite (scan_translation_first_match pre post e wLang (u_codepage u) Hpre He)
    in H.
  exact (H Hc).
Qed.

Lemma language_id_match_witness :
  let P := Sample.os in
  let c := ByLanguage 1033 in
  let o := this (construct P Sample.stale c) in
  0 < 1033 < 65536 /\
  GetFileVersionInfoSize P (target P Sample.stale c) <> 0 /\
  m_strCodepage o = "04b0" /\
  GetCompanyName o = "Acme Corp".
Proof.
  intros P c o.
  assert (Hw : 0 < 1033 < 65536) by lia.
  assert (Hs : GetFileVersionInfoSize P (target P Sample.stale c) <> 0)
    by (vm_compute; discriminate).
  assert (Hc : 0 <= 1200 < 65536) by lia.
  destruct (language_id_match P Sample.stale 1033 Sample.app_block [] []
              {| wLanguage := 1033; wCodePage := 1200 |}
              Hw Hs eq_refl eq_refl (fun x (H : In x []) => match H with end)
              eq_refl Hc) as (_ & H2 & H3).
  split; [exact Hw|]. split; [exact Hs|]. split; [exact H2|].
  exact (H3 m_strCompanyName).
Defined.

(** X10. No language identifier, an empty language or codepage text and
    a block without a translation value: the texts stay as they were
    given, and the queries are made under the key built from them; with
    neither text given the key has no language part at all. *)
Theorem no_translation_table (P : Platform) (u : Uninit) (c : Construction)
    (blk : VersionBlock) :
  let o0 := this (prepare P u c) in
  let o := this (construct P u c) in
  m_bVersionOnly o0 = FALSE ->
  m_wLanguage o0 = 0 ->
  GetFileVersionInfoSize P (target P u c) <> 0 ->
  GetFileVersionInfo P (target P u c) = Some blk ->
  vq_translation blk = None ->
  m_strLanguage o = m_strLanguage o0 /\
  m_strCodepage o = m_strCodepage o0 /\
  (forall k,
     getter k o = stored P (vq_string blk (selector o0 (szId_of k)))) /\
  (m_strLanguage o0 = "" -> m_strCodepage o0 = "" ->
   forall k,
     getter k o =
       stored P (vq_string blk ("\StringFileInfo\\" ++ szId_of k))).
Proof.
  intros o0 o Hfull Hw Hs Hl Ht. subst o.
  destruct (loaded_construct P u c blk Hfull Hs Hl (or_introl Hw))
    as (d & f & -> & Hf).
  set (r2 := GetFixedVersionInfo
               (loaded_run P (target P u c) blk (enter (prepare P u c)))) in *.
  assert (Hthis : this (resolve_language u r2) = this r2).
  { destruct (Bool.bool_dec
                (Str.empty (m_strLanguage (this r2))
                 || Str.empty (m_strCodepage (this r2))) true) as [He|He].
    - rewrite resolve_language_no_table; try assumption; try reflexivity.
      + subst r2. now rewrite r2_wLanguage.
      + subst r2. now rewrite r2_translation.
    - apply not_true_is_false in He.
      rewrite resolve_language_given; try assumption; try reflexivity.
      subst r2. now rewrite r2_wLanguage. }
  rewrite Hthis in *.
  cbn [m_strLanguage m_strCodepage set_dvi with_str].
  assert (Hall : forall k,
            getter k (set_dvi d (with_str f (this r2))) =
            stored P (vq_string blk (selector o0 (szId_of k)))).
  { intros k. rewrite getter_member. cbn [m_str set_dvi with_str].
    rewrite Hf. subst r2. apply answer_kept. }
  split; [subst r2; apply r2_language|].
  split; [subst r2; apply r2_codepage|].
  split; [exact Hall|].
  intros El Ec k. rewrite Hall. do 2 f_equal.
  unfold selector. rewrite El, Ec. cbn [append].
  apply PrintfFacts.StringCch_fits.
  pose proof (szId_length k). cbn [String.length]. lia.
Qed.

Lemma no_translation_table_witness :
  let blk :=
    {| vq_root := None; vq_translation := None;
       vq_string := Sample.assoc
         [ ("\StringFileInfo\\CompanyName", "Nameless") ] |} in
  let P :=
    {| GetModuleFileName := fun _ => "bare.exe";
       GetFileVersionInfoSize := fun _ => 64;
       GetFileVersionInfo := fun _ => Some blk;
       LoadLibrary := fun _ => NULL;
       GetProcAddress_DllGetVersion := fun _ => None;
       trim_ws := Sample.trim |} in
  let c := ByVersionOnly FALSE in
  GetFileVersionInfoSize P (target P Sample.clean c) <> 0 /\
  m_strLanguage (this (construct P Sample.clean c)) = "" /\
  GetCompanyName (this (construct P Sample.clean c)) = "Nameless".
Proof.
  intros blk P c.
  assert (Hs : GetFileVersionInfoSize P (target P Sample.clean c) <> 0)
    by (vm_compute; discriminate).
  destruct (no_translation_table P Sample.clean c blk eq_refl eq_refl Hs
              eq_refl eq_refl) as (H1 & _ & _ & H4).
  split; [exact Hs|]. split; [exact H1|].
  exact (H4 eq_refl eq_refl m_strCompanyName).
Defined.

(** X11. With full info on a loaded block, for a constructor that sets
    no language identifier or on a block that holds a translation value,
    the construction completes without a fault and its calls are, in
    this order: calls that ask for a module path; the size query, the
    load and the root query; no or one translation query; the eleven
    string queries in the order of the source, all under the one key that
    the record ends up with; and the DLL sequence. *)
Theorem string_queries_in_order (P : Platform) (u : Uninit)
    (c : Construction) (blk : VersionBlock) :
  let o := this (construct P u c) in
  let sz := target P u c in
  m_bVersionOnly (this (prepare P u c)) = FALSE ->
  GetFileVersionInfoSize P sz <> 0 ->
  GetFileVersionInfo P sz = Some blk ->
  m_wLanguage (this (prepare P u c)) = 0 \/ vq_translation blk <> None ->
  fault (construct P u c) = false /\
  exists path_calls translation,
    calls (construct P u c) =
      (path_calls ++
       [CallGetFileVersionInfoSize sz; CallGetFileVersionInfo sz;
        CallVerQueryValue "\"] ++
       translation ++
       List.map (fun szId => CallVerQueryValue (selector o szId)) field_names ++
       dll_sequence P (m_bDllVersion (this (prepare P u c))) sz)%list /\
    forallb is_path_call path_calls = true /\
    (translation = [] \/
     translation = [CallVerQueryValue "\VarFileInfo\Translation"]).
Proof.
  intros o sz Hfull Hs Hl Hok. subst o.
  assert (Hok' : m_wLanguage (this (prepare P u c)) = 0 \/
                 (forall b, GetFileVersionInfo P (target P u c) = Some b ->
                            vq_translation b <> None)).
  { destruct Hok as [Hw|Ht]; [now left|right].
    intros b Hb. fold sz in Hb. rewrite Hl in Hb. now injection Hb as <-. }
  split.
  { rewrite construct_fault. now apply construct_no_fault. }
  destruct (loaded_construct P u c blk Hfull Hs Hl Hok) as (d & f & -> & _).
  rewrite construct_stages by exact Hok'. fold sz.
  rewrite CallLog.read_dll_calls.
  destruct (read_resource_flags P u sz (enter (prepare P u c))) as (-> & _).
  rewrite CallLog.enter_flag.
  rewrite (read_resource_full P u _ blk); try assumption;
    [|now rewrite enter_this].
  rewrite QueryStrings_parts by now apply (loaded_no_fault P u c blk).
  rewrite query_all_list, query_list_calls.
  set (r2 := GetFixedVersionInfo
               (loaded_run P sz blk (enter (prepare P u c)))).
  assert (Hr2 : calls r2 =
            (calls (enter (prepare P u c)) ++
             [CallGetFileVersionInfoSize sz; CallGetFileVersionInfo sz;
              CallVerQueryValue "\"])%list).
  { subst r2. rewrite GetFixedVersionInfo_calls. unfold loaded_run.
    cbn [calls log upd]. now rewrite <- !app_assoc. }
  exists (calls (enter (prepare P u c))).
  destruct (resolve_language_adds u r2) as [E|E]; rewrite E, Hr2.
  - exists []. split; [|split]; [|apply CallLog.enter_prepare_calls|now left].
    rewrite <- !app_assoc. reflexivity.
  - exists [CallVerQueryValue "\VarFileInfo\Translation"].
    split; [|split]; [|apply CallLog.enter_prepare_calls|now right].
    rewrite <- !app_assoc. reflexivity.
Qed.

Lemma string_queries_in_order_witness :
  let P := Sample.os in
  let c := ByFileDll (Some "app.exe") TRUE in
  GetFileVersionInfoSize P (target P Sample.clean c) <> 0 /\
  m_wLanguage (this (prepare P Sample.clean c)) = 0 /\
  fault (construct P Sample.clean c) = false /\
  exists path_calls translation,
    calls (construct P Sample.clean c) =
      (path_calls ++
       [CallGetFileVersionInfoSize "app.exe"; CallGetFileVersionInfo "app.exe";
        CallVerQueryValue "\"] ++
       translation ++
       List.map (fun szId =>
                   CallVerQueryValue
                     (selector (this (construct P Sample.clean c)) szId))
         field_names ++
       dll_sequence P TRUE "app.exe")%list /\
    forallb is_path_call path_calls = true /\
    (translation = [] \/
     translation = [CallVerQueryValue "\VarFileInfo\Translation"]).
Proof.
  intros P c.
  assert (Hs : GetFileVersionInfoSize P (target P Sample.clean c) <> 0)
    by (vm_compute; discriminate).
  split; [exact Hs|]. split; [reflexivity|].
  exact (string_queries_in_order P Sample.clean c Sample.app_block
           eq_refl Hs eq_refl (or_introl eq_refl)).
Defined.



End Keys.

Module Constructors.
Import Version VersionFacts Accessors.

(** X12. The constructors agree where their arguments say the same: an
    empty file name, language or codepage text counts as a null pointer;
    the file constructor without texts is the file constructor without the
    DLL flag; and the language constructor with identifier zero, the
    version-only constructor with [FALSE] and the file constructor with
    no file build the same record with the same calls. *)
Theorem constructors_agree (P : Platform) (u : Uninit)
    (f l cp : option string) (b : BOOL) :
  construct P u (ByFileDll (Some "") b) = construct P u (ByFileDll None b) /\
  construct P u (ByFileLanguage (Some "") l cp)
    = construct P u (ByFileLanguage None l cp) /\
  construct P u (ByFileLanguage f (Some "") cp)
    = construct P u (ByFileLanguage f None cp) /\
  construct P u (ByFileLanguage f l (Some ""))
    = construct P u (ByFileLanguage f l None) /\
  construct P u (ByFileLanguage f None None)
    = construct P u (ByFileDll f FALSE) /\
  construct P u (ByLanguage 0) = construct P u (ByVersionOnly FALSE) /\
  construct P u (ByVersionOnly FALSE) = construct P u (ByFileDll None FALSE).
Proof.
  rewrite !construct_prepare.
  repeat split; f_equal; destruct f, l, cp; reflexivity.
Qed.

(** The flag is written as soon as the size is not zero, so what its
    storage held no longer shows. *)
Lemma found_overwrites (P : Platform) (u u' : Uninit) (c : Construction)
    (c0 : OsCall) :
  upd (set_bVersionFound TRUE) (log c0 (enter (prepare P u c))) =
  upd (set_bVersionFound TRUE) (log c0 (enter (prepare P u' c))).
Proof.
  unfold enter.
  destruct c as [b|w|f b|f l cp|h]; cbn [prepare this upd].
  - reflexivity.
  - reflexivity.
  - destruct f as [[|a f]|]; reflexivity.
  - destruct f as [[|a f]|], l, cp; reflexivity.
  - cbn [m_strFileName set_strFileName set_dvi set_FixedFileInfo this log
         start members].
    destruct (Str.empty (GetModuleFileName P h)); reflexivity.
Qed.

Lemma target_same (P : Platform) (u u' : Uninit) (c : Construction) :
  target P u c = target P u' c.
Proof.
  destruct c as [b|w|f b|f l cp|h]; try reflexivity.
  - destruct f; reflexivity.
  - destruct f, l, cp; reflexivity.
Qed.

Lemma prepare_language_same (P : Platform) (u u' : Uninit)
    (c : Construction) :
  m_wLanguage (this (prepare P u c)) = m_wLanguage (this (prepare P u' c)) /\
  m_bVersionOnly (this (prepare P u c))
    = m_bVersionOnly (this (prepare P u' c)).
Proof.
  destruct c as [b|w|f b|f l cp|h]; try (split; reflexivity).
  - destruct f; split; reflexivity.
  - destruct f, l, cp; split; reflexivity.
Qed.

Lemma resolve_language_same (u u' : Uninit) (r : Run) :
  m_wLanguage (this r) = 0 ->
  VerQueryValue_translation (this r) <> Some [] ->
  resolve_language u r = resolve_language u' r.
Proof.
  intros H0 Ht. unfold resolve_language. rewrite H0. cbn [Z.eqb negb].
  destruct (Str.empty _ || Str.empty _); [|reflexivity].
  cbn [this log].
  destruct (VerQueryValue_translation (this r)) as [[|e t]|];
    [contradiction|reflexivity|reflexivity].
Qed.

(** X13. On a file that has a version resource, built without a language
    identifier, and whose translation value (if the block loads) is not
    empty, the construction does not depend on any storage it did not
    write: the record and the calls are the same for every content of
    that storage. *)
Theorem construction_ignores_unwritten_storage (P : Platform)
    (u u' : Uninit) (c : Construction) :
  GetFileVersionInfoSize P (target P u c) <> 0 ->
  m_wLanguage (this (prepare P u c)) = 0 ->
  (forall blk, GetFileVersionInfo P (target P u c) = Some blk ->
               vq_translation blk <> Some []) ->
  construct P u c = construct P u' c.
Proof.
  intros Hs Hw Ht.
  rewrite (construct_stages P u c) by now left.
  rewrite (construct_stages P u' c)
    by (left; now rewrite <- (proj1 (prepare_language_same P u u' c))).
  rewrite <- (target_same P u u' c).
  set (sz := target P u c) in *.
  f_equal.
  destruct (GetFileVersionInfo P sz) as [blk|] eqn:Hl.
  - assert (Hrun : loaded_run P sz blk (enter (prepare P u c)) =
                   loaded_run P sz blk (enter (prepare P u' c))).
    { unfold loaded_run. now rewrite (found_overwrites P u u' c). }
    destruct (prepare_language_same P u u' c) as [Hw' Hv'].
    destruct (Z.eq_dec (m_bVersionOnly (this (prepare P u c))) FALSE)
      as [Hv|Hv].
    + rewrite !(read_resource_full P _ sz blk); try assumption;
        try (rewrite enter_this; cbn; congruence).
      rewrite <- Hrun, !QueryStrings_unless. f_equal.
      apply resolve_language_same.
      * rewrite GetFixedVersionInfo_this. unfold loaded_run.
        cbn [this log upd m_wLanguage set_dvi set_FixedFileInfo
             set_pVffInfo set_bVersionFound].
        now rewrite enter_this.
      * unfold VerQueryValue_translation, block.
        rewrite GetFixedVersionInfo_this. unfold loaded_run.
        cbn [this log upd m_pVffInfo set_dvi set_FixedFileInfo
             set_pVffInfo].
        now apply Ht.
    + rewrite !(read_resource_version_only P _ sz blk); try assumption;
        try (rewrite enter_this; cbn; congruence).
      now rewrite Hrun.
  - rewrite !read_resource_load_failed by assumption.
    now rewrite (found_overwrites P u u' c).
Qed.

Lemma construction_ignores_unwritten_storage_witness :
  let P := Sample.os in
  let c := ByFileLanguage (Some "app.exe") None None in
  GetFileVersionInfoSize P (target P Sample.clean c) <> 0 /\
  construct P Sample.clean c = construct P Sample.stale c.
Proof.
  intros P c.
  assert (Hs : GetFileVersionInfoSize P (target P Sample.clean c) <> 0)
    by (vm_compute; discriminate).
  split; [exact Hs|].
  apply (construction_ignores_unwritten_storage P Sample.clean Sample.stale c
           Hs eq_refl).
  intros blk Hl. injection Hl as <-. discriminate.
Defined.

End Constructors.

Module Paths.
Import Version VersionFacts Accessors.

Lemma Forall_snoc (Q : OsCall -> Prop) (l : list OsCall) (c : OsCall) :
  Forall Q l -> Q c -> Forall Q (l ++ [c]).
Proof. intros Hl Hc. apply Forall_app. split; [exact Hl|]. now constructor. Qed.

Lemma Forall_queries (Q : OsCall -> Prop) (l : list OsCall)
    (sel : string -> string) (ks : list (string * StringMember)) :
  (forall s, Q (CallVerQueryValue s)) ->
  Forall Q l ->
  Forall Q (l ++ List.map (fun p => CallVerQueryValue (sel (fst p))) ks).
Proof.
  intros HQ Hl. apply Forall_app. split; [exact Hl|].
  induction ks as [|p ks IH]; cbn [List.map]; constructor; auto.
Qed.

Section OnPath.

Variable P : Platform.
Variable u : Uninit.
Variable sz : string.

Lemma resolve_language_on_path (r : Run) :
  Forall (on_path sz) (calls r) ->
  Forall (on_path sz) (calls (resolve_language u r)).
Proof.
  intros H. destruct (resolve_language_adds u r) as [-> | ->];
    [exact H|]. now apply Forall_snoc.
Qed.

Lemma read_resource_on_path (r : Run) :
  Forall (on_path sz) (calls r) ->
  Forall (on_path sz) (calls (read_resource P u sz r)).
Proof.
  intros H.
  assert (Hrun : forall b, Forall (on_path sz) (calls (loaded_run P sz b r))).
  { intros b. unfold loaded_run. cbn [calls log upd].
    repeat apply Forall_snoc; auto; reflexivity. }
  destruct (Z.eq_dec (GetFileVersionInfoSize P sz) 0) as [Hs|Hs].
  - rewrite read_resource_absent by assumption. cbn [calls log].
    apply Forall_snoc; [exact H|reflexivity].
  - destruct (GetFileVersionInfo P sz) as [b|] eqn:Hl.
    + destruct (Z.eq_dec (m_bVersionOnly (this r)) FALSE) as [Hv|Hv].
      * rewrite (read_resource_full P u sz b) by assumption.
        assert (Hq : Forall (on_path sz)
                       (calls (resolve_language u
                                 (GetFixedVersionInfo (loaded_run P sz b r))))).
        { apply resolve_language_on_path.
          rewrite GetFixedVersionInfo_calls. apply Forall_snoc; [|exact I].
          apply Hrun. }
        destruct (QueryStrings_cases P u
                    (GetFixedVersionInfo (loaded_run P sz b r)))
          as [[_ ->]|[_ ->]]; [|exact Hq].
        rewrite query_all_list, query_list_calls.
        apply Forall_queries; [now intros s|exact Hq].
      * rewrite (read_resource_version_only P u sz b) by assumption.
        rewrite GetFixedVersionInfo_calls. apply Forall_snoc; [|exact I].
        apply Hrun.
    + rewrite read_resource_load_failed by assumption.
      cbn [calls log upd]. repeat apply Forall_snoc; auto; reflexivity.
Qed.

Lemma dll_sequence_on_path (b : BOOL) :
  Forall (on_path sz) (dll_sequence P b sz).
Proof.
  unfold dll_sequence. destruct (truthy b); [|constructor].
  constructor; [reflexivity|].
  destruct (negb (LoadLibrary P sz =? NULL)); [|constructor].
  constructor; [exact I|].
  destruct (GetProcAddress_DllGetVersion P (LoadLibrary P sz));
    repeat constructor.
Qed.

End OnPath.

Lemma enter_prepare_on_path (P : Platform) (u : Uninit) (c : Construction)
    (sz : string) :
  Forall (on_path sz) (calls (enter (prepare P u c))).
Proof.
  pose proof (CallLog.enter_prepare_calls P u c) as H.
  rewrite forallb_forall in H. apply Forall_forall. intros x Hx.
  specialize (H x Hx). now destruct x.
Qed.

(** X14. Every call of a construction that takes a file path - the size
    query, the load of the version info and [LoadLibrary] - takes the same
    one: the path of the running module when the record has no file name,
    and otherwise the file name cut to its first 259 characters (so a
    name of at most 259 characters is passed as it is). *)
Theorem one_path_for_all_calls (P : Platform) (u : Uninit)
    (c : Construction) :
  let szFileName := m_strFileName (this (prepare P u c)) in
  let sz := if Str.empty szFileName then GetModuleFileName P NULL
            else Str.take 259 szFileName in
  Forall (on_path sz) (calls (construct P u c)) /\
  ((0 < String.length szFileName <= 259)%nat -> sz = szFileName).
Proof.
  intros szFileName sz.
  assert (Hsz : sz = target P u c) by reflexivity.
  split.
  - rewrite construct_prepare.
    destruct (GetVersionInfo_cases P u (prepare P u c)) as [[_ ->]|[_ ->]];
      fold (target P u c); rewrite <- Hsz.
    + rewrite CallLog.read_dll_calls.
      apply Forall_app. split; [|apply dll_sequence_on_path].
      apply read_resource_on_path, enter_prepare_on_path.
    + apply read_resource_on_path, enter_prepare_on_path.
  - intros Hlen. subst sz.
    destruct szFileName as [|a t] eqn:E; [cbn in Hlen; lia|].
    cbn [Str.empty]. apply StrFacts.take_all. lia.
Qed.

Lemma one_path_for_all_calls_witness :
  let c := ByFileDll (Some "app.exe") TRUE in
  (0 < String.length (m_strFileName (this (prepare Sample.os Sample.clean c)))
     <= 259)%nat /\
  Forall (on_path "app.exe") (calls (construct Sample.os Sample.clean c)).
Proof.
  intros c.
  assert (Hlen : (0 < String.length
                      (m_strFileName (this (prepare Sample.os Sample.clean c)))
                    <= 259)%nat) by (cbn; lia).
  split; [exact Hlen|].
  destruct (one_path_for_all_calls Sample.os Sample.clean c) as [H1 H2].
  rewrite (H2 Hlen) in H1. exact H1.
Defined.

End Paths.

(** ** Further properties of Environment.cpp *)

Module NodeIdText.
Import Environment EnvironmentFacts.

(** [%02x] of one byte has no colon and reads back as the byte. *)
Lemma fmt_02x_reads_back (b : byte) :
  let s := Printf.fmt_0x 2 (Z.of_N (Byte.to_N b)) in
  Version.has_char ":" s = false /\ byte_of_pair s = Some b.
Proof. destruct b; vm_compute; split; reflexivity. Qed.

(** X15. The text of a six-byte node identifier reads back as the
    identifier, so distinct identifiers have distinct texts. *)
Theorem nodeId_reads_back (impl : EnvironmentImpl) :
  List.length (nodeIdImpl impl) = 6%nat ->
  exists s, nodeId impl = Some s /\ parse_node_id s = Some (nodeIdImpl impl).
Proof.
  intros Hlen. unfold nodeId, nodeId_bytes.
  destruct (nodeIdImpl impl) as [|b0 [|b1 [|b2 [|b3 [|b4 [|b5 [|b6 rest]]]]]]];
    try discriminate Hlen.
  unfold at_index. cbn [nth].
  destruct (fmt_02x_reads_back b0) as [C0 V0].
  destruct (fmt_02x_reads_back b1) as [C1 V1].
  destruct (fmt_02x_reads_back b2) as [C2 V2].
  destruct (fmt_02x_reads_back b3) as [C3 V3].
  destruct (fmt_02x_reads_back b4) as [C4 V4].
  destruct (fmt_02x_reads_back b5) as [C5 V5].
  cbv zeta in *.
  destruct (fmt_02x_byte b0) as (h0 & l0 & E0 & _).
  destruct (fmt_02x_byte b1) as (h1 & l1 & E1 & _).
  destruct (fmt_02x_byte b2) as (h2 & l2 & E2 & _).
  destruct (fmt_02x_byte b3) as (h3 & l3 & E3 & _).
  destruct (fmt_02x_byte b4) as (h4 & l4 & E4 & _).
  destruct (fmt_02x_byte b5) as (h5 & l5 & E5 & _).
  rewrite E0, E1, E2, E3, E4, E5 in *.
  eexists. split; [reflexivity|].
  unfold parse_node_id.
  change (String h0 (String l0 "") ++ ":" ++ String h1 (String l1 "") ++ ":" ++
          String h2 (String l2 "") ++ ":" ++ String h3 (String l3 "") ++ ":" ++
          String h4 (String l4 "") ++ ":" ++ String h5 (String l5 ""))
    with (String h0 (String l0 "") ++ String ":"
          (String h1 (String l1 "") ++ String ":"
           (String h2 (String l2 "") ++ String ":"
            (String h3 (String l3 "") ++ String ":"
             (String h4 (String l4 "") ++ String ":"
              (String h5 (String l5 ""))))))).
  rewrite !VersionText.split_on_field, VersionText.split_on_last
    by assumption.
  cbn [fold_right]. now rewrite V0, V1, V2, V3, V4, V5.
Qed.

Lemma nodeId_reads_back_witness :
  List.length (nodeIdImpl Sample.host) = 6%nat /\
  exists s, nodeId Sample.host = Some s /\
            parse_node_id s = Some (nodeIdImpl Sample.host).
Proof.
  split; [reflexivity|].
  exact (nodeId_reads_back Sample.host eq_refl).
Defined.

End NodeIdText.
